(** * Truth table generator: the logic core of [truth_table_generator.py]

    A shallow embedding of [LogicalExpression] (variable extraction, operator
    rewriting, evaluation by text substitution and [eval]) and of the parts of
    [TruthTableGenerator] that compute: [create_truth_table],
    [analyze_expression], [identify_binary_operation] and the control flow of
    [generate_truth_table].  Of the report, the satisfying assignments it
    lists; of the plots, the data they are drawn from: the bars of
    [create_1d_visualization], the points of [create_2d_3d_plot], the
    vertices and edges of [create_3d_cube_plot], the choice made by
    [create_3d_plot] and the integer branch of [create_hypercube_projection].
    Widgets, colours, the floating-point projection and the animation thread
    are not modelled.

    Conventions.
    - A Python [str] is a [string]: the sequence of the bytes of its UTF-8
      encoding.  Replacing one valid UTF-8 substring by another commutes with
      the encoding, so [replace] on bytes is [str.replace] on code points.
      [upper], [\d] and [\s] are the ASCII ones; every text evaluated
      concretely below is ASCII.
    - A one-character [str] (a variable name) is its character, an [ascii].
    - A Python [int] is a [Z], a [bool] a [bool]; [int(b)] is [Z.b2z b].
    - A call that can raise returns an [outcome].
    - [eval] is the interpreter's and a parameter of the functions that call
      it, a function of the string it is given; a call of it returns a value
      or raises.  General statements hold
      for every such [eval].  Statements about particular texts hold for every
      [eval] that agrees with [py_eval], a model of Python's evaluation of the
      expressions the program builds from logical texts. *)

From Stdlib Require Import String Ascii List ZArith Lia Bool Arith Sorted.
Import ListNotations.
Open Scope string_scope.
Open Scope nat_scope.

(** ** Python strings *)

Module Py.

Definition chars (s : string) : list ascii := list_ascii_of_string s.

Definition code (c : ascii) : nat := nat_of_ascii c.

(** [c1 <= c <= c2] on code points. *)
Definition in_range (c1 c2 c : ascii) : bool :=
  (code c1 <=? code c) && (code c <=? code c2).

(** [s.replace(old, new)] for a non-empty [old] (every call of the source has
    one): scan from the left; where [old] starts, emit [new] and jump over
    [old]; elsewhere copy one character.  [skip] counts the characters of a
    replaced occurrence that are still to be jumped over. *)
Fixpoint replace_from (old new : string) (skip : nat) (s : string) : string :=
  match s with
  | EmptyString => EmptyString
  | String c s' =>
      match skip with
      | S k => replace_from old new k s'
      | O =>
          if prefix old s
          then new ++ replace_from old new (String.length old - 1) s'
          else String c (replace_from old new 0 s')
      end
  end.

Definition replace (old new s : string) : string := replace_from old new 0 s.

(** [s.upper()] on ASCII. *)
Definition upper_char (c : ascii) : ascii :=
  if in_range "a" "z" c then ascii_of_nat (code c - 32) else c.

Fixpoint upper (s : string) : string :=
  match s with
  | EmptyString => EmptyString
  | String c s' => String (upper_char c) (upper s')
  end.

(** The characters [str.strip()] removes (ASCII white space). *)
Definition is_space (c : ascii) : bool :=
  in_range "009" "013" c || in_range "028" "032" c.

Fixpoint lstrip (s : string) : string :=
  match s with
  | EmptyString => EmptyString
  | String c s' => if is_space c then lstrip s' else s
  end.

Fixpoint rstrip (s : string) : string :=
  match s with
  | EmptyString => EmptyString
  | String c s' =>
      match rstrip s' with
      | EmptyString => if is_space c then EmptyString else String c EmptyString
      | r => String c r
      end
  end.

Definition strip (s : string) : string := rstrip (lstrip s).

(** [re.findall(r'[A-Za-z]', s)]: the ASCII letters of [s], in order. *)
Definition is_letter (c : ascii) : bool :=
  in_range "A" "Z" c || in_range "a" "z" c.

Definition findall_letters (s : string) : list ascii :=
  filter is_letter (chars s).

(** [x in xs] for characters. *)
Definition mem (c : ascii) (l : list ascii) : bool :=
  existsb (Ascii.eqb c) l.

(** [set(xs)] keeps one copy of every element; [sorted] orders one-character
    strings by code point.  The order in which a set is listed does not show
    after sorting, so the set is kept as a duplicate-free list. *)
Definition set_of (l : list ascii) : list ascii := nodup ascii_dec l.

Fixpoint insert_sorted (c : ascii) (l : list ascii) : list ascii :=
  match l with
  | [] => [c]
  | d :: l' => if code c <=? code d then c :: l else d :: insert_sorted c l'
  end.

Definition sorted (l : list ascii) : list ascii :=
  fold_right insert_sorted [] l.

(** The longest prefix of [s] whose characters satisfy [p], and the rest. *)
Fixpoint span (p : ascii -> bool) (s : string) : string * string :=
  match s with
  | EmptyString => (EmptyString, EmptyString)
  | String c s' =>
      if p c
      then let (a, b) := span p s' in (String c a, b)
      else (EmptyString, s)
  end.

Definition is_digit (c : ascii) : bool := in_range "0" "9" c.

(** One match of [(\d+)\s*<=\s*(\d+)] at the start of [s]: the two groups and
    the length of the match.  A digit is neither white space nor [<], so the
    greedy runs are the only way the pattern can match and no backtracking
    finds another. *)
Definition match_implication (s : string) : option (string * string * nat) :=
  let (d1, r1) := span is_digit s in
  match d1 with
  | EmptyString => None
  | _ =>
      let (_, r2) := span is_space r1 in
      match r2 with
      | String "<" (String "=" r3) =>
          let (_, r4) := span is_space r3 in
          let (d2, r5) := span is_digit r4 in
          match d2 with
          | EmptyString => None
          | _ => Some (d1, d2, String.length s - String.length r5)
          end
      | _ => None
      end
  end.

(** [re.sub(r'(\d+)\s*<=\s*(\d+)', r'(not \1 or \2)', s)]: the leftmost
    matches, none overlapping another. *)
Fixpoint sub_implication_from (skip : nat) (s : string) : string :=
  match s with
  | EmptyString => EmptyString
  | String c s' =>
      match skip with
      | S k => sub_implication_from k s'
      | O =>
          match match_implication s with
          | Some (d1, d2, n) =>
              "(not " ++ d1 ++ " or " ++ d2 ++ ")" ++ sub_implication_from (n - 1) s'
          | None => String c (sub_implication_from 0 s')
          end
      end
  end.

Definition sub_implication (s : string) : string := sub_implication_from 0 s.

(** [itertools.product(pool, repeat=n)], as the library documents it: start
    from the one empty tuple and, once per position, extend every tuple by
    every element of the pool. *)
Fixpoint product {A : Type} (pool : list A) (repeat : nat) : list (list A) :=
  match repeat with
  | O => [[]]
  | S n =>
      flat_map (fun x => map (fun y => (x ++ [y])%list) pool) (product pool n)
  end.

(** A [dict] from one-character strings to booleans. *)
Definition dict : Type := ascii -> option bool.

Definition dict_empty : dict := fun _ => None.

Definition dict_set (k : ascii) (v : bool) (d : dict) : dict :=
  fun k' => if Ascii.eqb k' k then Some v else d k'.

(** [dict(zip(keys, values))]: pairs up to the shorter list, a later pair
    overriding an earlier one with the same key. *)
Definition dict_zip (keys : list ascii) (values : list bool) : dict :=
  fold_left (fun d kv => dict_set (fst kv) (snd kv) d) (combine keys values)
            dict_empty.

(** [str(int(b))]. *)
Definition str_int_of_bool (b : bool) : string := if b then "1" else "0".

(** The values [eval] can hand back: booleans, integers, and any other
    object, of which only the effect of [int(...)] on it matters here
    ([None] when [int] raises). *)
Inductive value : Type :=
  | PyBool (b : bool)
  | PyInt (z : Z)
  | PyObject (as_int : option Z).

Inductive error : Type := SyntaxError | NameError | OtherError.

(** What a call of [eval] does: return a value or raise. *)
Inductive eval_result : Type :=
  | Value (v : value)
  | Error (e : error).

(** [int(v)]. *)
Definition int (v : value) : option Z :=
  match v with
  | PyBool b => Some (Z.b2z b)
  | PyInt z => Some z
  | PyObject r => r
  end.

End Py.

(** ** class LogicalExpression: construction *)

Record LogicalExpression : Type := {
  expression : string;
  variables : list ascii;
  parsed_expr : string
}.

(** The set literal [operators] of [extract_variables]. *)
Definition operators : list ascii :=
  ["A"; "N"; "D"; "O"; "R"; "I"; "F"; "T"; "U"; "E"]%char.

Definition extract_variables (expression : string) : list ascii :=
  let vars_found := Py.findall_letters expression in
  let variables :=
    Py.set_of (filter (fun var => negb (Py.mem var operators)) vars_found) in
  Py.sorted variables.

Definition parse_expression (expression : string) : string :=
  let expr := Py.upper expression in
  let expr := Py.replace "AND" "&" expr in
  let expr := Py.replace "OR" "|" expr in
  let expr := Py.replace "NOT" "~" expr in
  let expr := Py.replace "IMPLIES" ">" expr in
  let expr := Py.replace "IFF" "=" expr in
  let expr := Py.replace "->" ">" expr in
  let expr := Py.replace "<->" "=" expr in
  let expr := Py.replace "!" "~" expr in
  let expr := Py.replace "∧" "&" expr in
  let expr := Py.replace "∨" "|" expr in
  let expr := Py.replace "¬" "~" expr in
  let expr := Py.replace "→" ">" expr in
  let expr := Py.replace "↔" "=" expr in
  expr.

(** [LogicalExpression(expression)], the constructor [__init__]. *)
Definition new_LogicalExpression (text : string) : LogicalExpression :=
  let expression := Py.replace " " "" text in
  {| expression := expression;
     variables := extract_variables expression;
     parsed_expr := parse_expression expression |}.


(** ** Exceptions that reach the caller *)

Inductive exn : Type :=
  | KeyError (key : ascii)
  | IndexError.

Inductive outcome (A : Type) : Type :=
  | Returns (a : A)
  | Raises (e : exn).

Arguments Returns {A} a.
Arguments Raises {A} e.

Definition bind {A B : Type} (c : outcome A) (k : A -> outcome B) : outcome B :=
  match c with
  | Returns a => k a
  | Raises e => Raises e
  end.

Notation "x <- c ;; k" := (bind c (fun x => k))
  (at level 61, c at next level, right associativity).

(** [[f(x) for x in xs]] for an [f] that can raise. *)
Fixpoint for_each {A B : Type} (f : A -> outcome B) (xs : list A) : outcome (list B) :=
  match xs with
  | [] => Returns []
  | x :: xs' => y <- f x ;; ys <- for_each f xs' ;; Returns (y :: ys)
  end.

(** ** LogicalExpression.evaluate and the table *)

Inductive classification : Type := Tautology | Contradiction | Contingency.

(** What [analyze_expression] decides; the text of the report is built from
    these values. *)
Record analysis : Type := {
  true_count : Z;
  total_count : Z;
  false_count : Z;
  classified : classification;
  satisfiable : bool;
  binary_operation : option string
}.

(** The dict literal [operations] of [identify_binary_operation]. *)
Definition operations : list (list Z * string) :=
  [ ([0; 0; 0; 0], "Contradiction (False)");
    ([0; 0; 0; 1], "Conjunction (AND)");
    ([0; 0; 1; 0], "Material non-implication");
    ([0; 0; 1; 1], "First projection");
    ([0; 1; 0; 0], "Converse non-implication");
    ([0; 1; 0; 1], "Second projection");
    ([0; 1; 1; 0], "Exclusive disjunction (XOR)");
    ([0; 1; 1; 1], "Disjunction (OR)");
    ([1; 0; 0; 0], "Joint denial (NOR)");
    ([1; 0; 0; 1], "Biconditional (XNOR)");
    ([1; 0; 1; 0], "Negation (NOT B)");
    ([1; 0; 1; 1], "Converse implication");
    ([1; 1; 0; 0], "Negation (NOT A)");
    ([1; 1; 0; 1], "Material implication");
    ([1; 1; 1; 0], "Alternative denial (NAND)");
    ([1; 1; 1; 1], "Tautology (True)") ]%Z.

(** [d.get(key, default)] on a dict written as its list of items. *)
Fixpoint get (d : list (list Z * string)) (key : list Z) (default : string) : string :=
  match d with
  | [] => default
  | (k, v) :: d' => if list_eq_dec Z.eq_dec k key then v else get d' key default
  end.

(** [row[-1]]. *)
Definition last_item (row : list Z) : outcome Z :=
  match rev row with
  | [] => Raises IndexError
  | r :: _ => Returns r
  end.

Definition sum (l : list Z) : Z := fold_left Z.add l 0%Z.

Definition identify_binary_operation (truth_table_data : list (list Z)) : outcome string :=
  results <- for_each last_item truth_table_data ;;
  let pattern := results in
  Returns (get operations pattern "Custom operation").

Definition analyze_expression (self : LogicalExpression)
    (truth_table_data : list (list Z)) : outcome (option analysis) :=
  match truth_table_data with
  | [] => Returns None
  | _ =>
      results <- for_each last_item truth_table_data ;;
      let true_count := sum results in
      let total_count := Z.of_nat (length results) in
      let false_count := (total_count - true_count)%Z in
      let classified :=
        if (true_count =? total_count)%Z then Tautology
        else if (false_count =? total_count)%Z then Contradiction
        else Contingency in
      let satisfiable := (0 <? true_count)%Z in
      pattern <-
        (if length (variables self) =? 2
         then p <- identify_binary_operation truth_table_data ;; Returns (Some p)
         else Returns None) ;;
      Returns (Some {| true_count := true_count;
                       total_count := total_count;
                       false_count := false_count;
                       classified := classified;
                       satisfiable := satisfiable;
                       binary_operation := pattern |})
  end.

(** The summary row of the table and the text of the report print
    [true_count / total_count] as a float and a bar of [int(percent / 5)]
    blocks.  For counts as far from a truth table as a result of hundreds of
    digits the division raises [OverflowError], and a bar too long for the
    machine raises as well, from a size on that depends on the platform.
    [formats] is a bound under which none of this happens; beyond it the
    model leaves the run undecided. *)
Definition formats (true_count total_count : Z) : bool :=
  (Z.abs true_count <=? 1000 * total_count)%Z.

Section Evaluation.

(** The interpreter's [eval], on the string [evaluate] hands it.  The names in
    scope at that call are all lower or mixed case, so no word of an
    upper-cased ASCII text is one of them.  [eval] is taken as a function of
    that string alone.  An expression that reads the locals of [evaluate]
    ([variable_values], [self], [expr], [var]) or runs code of its own has to
    spell their names in letters that [upper] leaves as they are and the
    interpreter folds to ASCII; what [eval] does with such a text depends on
    more than the string and is outside the statements made here. *)
Variable eval : string -> Py.eval_result.

(** The loop [for var in self.variables: expr = expr.replace(var, ...)];
    [variable_values[var]] raises [KeyError] for a missing key. *)
Definition substitute (vars : list ascii) (variable_values : Py.dict) (expr : string)
  : outcome string :=
  fold_left
    (fun acc var =>
       expr <- acc ;;
       match variable_values var with
       | Some b => Returns (Py.replace (String var EmptyString) (Py.str_int_of_bool b) expr)
       | None => Raises (KeyError var)
       end)
    vars (Returns expr).

(** The operator rewriting between the loop and the [try]. *)
Definition python_operators (expr : string) : string :=
  let expr := Py.replace "&" " and " expr in
  let expr := Py.replace "|" " or " expr in
  let expr := Py.replace "~" " not " expr in
  let expr := Py.replace ">" " <= " expr in
  let expr := Py.replace "=" " == " expr in
  Py.sub_implication expr.

(** The string handed to [eval]. *)
Definition eval_input (expr : string) : string :=
  Py.replace "0" "False" (Py.replace "1" "True" (python_operators expr)).

Definition evaluate (self : LogicalExpression) (variable_values : Py.dict) : outcome Z :=
  expr <- substitute (variables self) variable_values (parsed_expr self) ;;
  (* try: *)
  match eval (eval_input expr) with
  | Py.Value result =>
      match Py.int result with
      | Some z => Returns z
      | None => Returns 0%Z       (* except: return 0 *)
      end
  | Py.Error _ => Returns 0%Z        (* except: return 0 *)
  end.

(** One turn of the loop of [create_truth_table]. *)
Definition table_row (self : LogicalExpression) (combination : list bool)
  : outcome (list Z) :=
  let var_dict := Py.dict_zip (variables self) combination in
  result <- evaluate self var_dict ;;
  Returns (map Z.b2z combination ++ [result])%list.

(** The loop of [create_truth_table]: the rows it appends to
    [self.truth_table_data].  The summary row added to the widget afterwards
    is no row of the data; its text is dealt with in [generate_truth_table]. *)
Definition create_truth_table (self : LogicalExpression) : outcome (list (list Z)) :=
  let n_vars := length (variables self) in
  fold_left
    (fun acc combination =>
       truth_table_data <- acc ;;
       row <- table_row self combination ;;
       Returns (truth_table_data ++ [row])%list)
    (Py.product [false; true] n_vars) (Returns []).

(** What [generate_truth_table] ends in: the warning box, the error box of
    its [except], or the table and the analysis on display.  [Unsettled]
    marks the runs this model does not decide (see [formats]). *)
Inductive generated : Type :=
  | InputRequired
  | ExpressionError (e : exn)
  | Displayed (current_expression : LogicalExpression)
              (truth_table_data : list (list Z))
              (report : option analysis)
  | Unsettled.

Definition placeholder : string := "Example: A AND (B OR NOT C)".

Definition generate_truth_table (entry : string) : generated :=
  let expression_text := Py.strip entry in
  if String.eqb expression_text "" || String.eqb expression_text placeholder
  then InputRequired
  else
    let current_expression := new_LogicalExpression expression_text in
    match create_truth_table current_expression with
    | Raises e => ExpressionError e
    | Returns truth_table_data =>
        match for_each last_item truth_table_data with
        | Raises e => ExpressionError e
        | Returns results =>
            if formats (sum results) (Z.of_nat (length results))
            then
              match analyze_expression current_expression truth_table_data with
              | Raises e => ExpressionError e
              | Returns report => Displayed current_expression truth_table_data report
              end
            else Unsettled
        end
    end.

End Evaluation.

(** ** The expressions [eval] is given: a fragment of Python

    The strings [evaluate] builds for logical expressions are Python
    expressions over [True], [False], names, decimal numbers, [and], [or],
    [not], [==], [<=], [<], [=] and parentheses, separated by spaces.
    [py_eval] reads such a string as the interpreter does (tokens, grammar,
    short-circuit evaluation, chained comparisons) and answers [None] for
    everything else: another character, a call [f(...)], the empty tuple, a
    name that is not all upper case, or an expression longer or deeper than
    [parse_fuel] allows. *)

Module PyExpr.

Inductive token : Type :=
  | TName (id : string)
  | TNumber (z : Z)
  | TTrue | TFalse | TAnd | TOr | TNot
  | TLParen | TRParen
  | TEqEq | TLessEq | TLess | TAssign.

Definition is_word_char (c : ascii) : bool :=
  Py.is_letter c || Py.is_digit c || Ascii.eqb c "_".

Definition is_upper_word_char (c : ascii) : bool :=
  Py.in_range "A" "Z" c || Py.is_digit c || Ascii.eqb c "_".

Fixpoint all_chars (p : ascii -> bool) (s : string) : bool :=
  match s with
  | EmptyString => true
  | String c s' => p c && all_chars p s'
  end.

(** The value of a run of decimal digits read after the value [acc]. *)
Fixpoint decimal (acc : Z) (s : string) : Z :=
  match s with
  | EmptyString => acc
  | String c s' => decimal (10 * acc + Z.of_nat (Py.code c - 48))%Z s'
  end.

(** The token a maximal run of letters, digits and underscores stands for.
    No name of only upper-case letters, digits and underscores is bound where
    [evaluate] calls [eval], so such a name is kept as a name; a word that
    mixes cases may be a builtin or a keyword and is left out, as are numbers
    other than plain decimal integers without a leading zero, and words of
    more than a hundred characters (the interpreter limits the digits of a
    number it converts). *)
Definition word_token (w : string) : option token :=
  if 100 <? String.length w then None
  else if String.eqb w "True" then Some TTrue
  else if String.eqb w "False" then Some TFalse
  else if String.eqb w "and" then Some TAnd
  else if String.eqb w "or" then Some TOr
  else if String.eqb w "not" then Some TNot
  else
    match w with
    | EmptyString => None
    | String c w' =>
        if Py.is_digit c then
          if all_chars Py.is_digit w'
          then if Ascii.eqb c "0" && negb (all_chars (Ascii.eqb "0") w')
               then None
               else Some (TNumber (decimal 0 w))
          else None
        else if all_chars is_upper_word_char w then Some (TName w)
        else None
    end.

Definition close_word (w : string) (rest : option (list token)) : option (list token) :=
  match w with
  | EmptyString => rest
  | _ =>
      match word_token w, rest with
      | Some t, Some ts => Some (t :: ts)
      | _, _ => None
      end
  end.

Definition emit (t : token) (rest : option (list token)) : option (list token) :=
  option_map (cons t) rest.

(** The tokens of [s]; [w] is the word being read. *)
Fixpoint lex_from (w : string) (s : string) : option (list token) :=
  match s with
  | EmptyString => close_word w (Some [])
  | String c s' =>
      if is_word_char c then lex_from (w ++ String c EmptyString) s'
      else if Ascii.eqb c " " then close_word w (lex_from "" s')
      else if Ascii.eqb c "(" then close_word w (emit TLParen (lex_from "" s'))
      else if Ascii.eqb c ")" then close_word w (emit TRParen (lex_from "" s'))
      else if Ascii.eqb c "=" then
        match s' with
        | String "=" s'' => close_word w (emit TEqEq (lex_from "" s''))
        | _ => close_word w (emit TAssign (lex_from "" s'))
        end
      else if Ascii.eqb c "<" then
        match s' with
        | String "=" s'' => close_word w (emit TLessEq (lex_from "" s''))
        | String "<" _ => None
        | _ => close_word w (emit TLess (lex_from "" s'))
        end
      else None
  end.

Definition lex (s : string) : option (list token) := lex_from "" s.

(** Booleans and integers, the values of the fragment. *)
Inductive scalar : Type :=
  | SBool (b : bool)
  | SInt (z : Z).

Inductive cmpop : Type := Eq | LtE | Lt.

Inductive expr : Type :=
  | Constant (v : scalar)
  | Name (id : string)
  | Not (operand : expr)
  | And (left right : expr)
  | Or (left right : expr)
  | Compare (left : expr) (comparators : chain)
with chain : Type :=
  | ChainLast (op : cmpop) (right : expr)
  | ChainCons (op : cmpop) (right : expr) (more : chain).

Inductive parsed (A : Type) : Type :=
  | Parsed (a : A) (rest : list token)
  | Invalid            (* SyntaxError *)
  | Beyond.            (* outside the fragment *)

Arguments Parsed {A} a rest.
Arguments Invalid {A}.
Arguments Beyond {A}.

Definition cmpop_of (t : token) : option cmpop :=
  match t with
  | TEqEq => Some Eq
  | TLessEq => Some LtE
  | TLess => Some Lt
  | _ => None
  end.

(** A parenthesis right after a primary opens a call. *)
Definition after_primary (e : expr) (rest : list token) : parsed expr :=
  match rest with
  | TLParen :: _ => Beyond
  | _ => Parsed e rest
  end.

(** Python's grammar on these tokens, lowest precedence first:
    [or], [and], [not], comparison chains, atoms. *)
Fixpoint p_or (fuel : nat) (ts : list token) : parsed expr :=
  match fuel with
  | O => Beyond
  | S f =>
      match p_and f ts with
      | Parsed e rest => p_or_tail f e rest
      | r => r
      end
  end
with p_or_tail (fuel : nat) (e : expr) (ts : list token) : parsed expr :=
  match fuel with
  | O => Beyond
  | S f =>
      match ts with
      | TOr :: ts' =>
          match p_and f ts' with
          | Parsed e2 rest => p_or_tail f (Or e e2) rest
          | r => r
          end
      | _ => Parsed e ts
      end
  end
with p_and (fuel : nat) (ts : list token) : parsed expr :=
  match fuel with
  | O => Beyond
  | S f =>
      match p_not f ts with
      | Parsed e rest => p_and_tail f e rest
      | r => r
      end
  end
with p_and_tail (fuel : nat) (e : expr) (ts : list token) : parsed expr :=
  match fuel with
  | O => Beyond
  | S f =>
      match ts with
      | TAnd :: ts' =>
          match p_not f ts' with
          | Parsed e2 rest => p_and_tail f (And e e2) rest
          | r => r
          end
      | _ => Parsed e ts
      end
  end
with p_not (fuel : nat) (ts : list token) : parsed expr :=
  match fuel with
  | O => Beyond
  | S f =>
      match ts with
      | TNot :: ts' =>
          match p_not f ts' with
          | Parsed e rest => Parsed (Not e) rest
          | r => r
          end
      | _ => p_comparison f ts
      end
  end
with p_comparison (fuel : nat) (ts : list token) : parsed expr :=
  match fuel with
  | O => Beyond
  | S f =>
      match p_atom f ts with
      | Parsed e (t :: rest) =>
          match cmpop_of t with
          | Some _ =>
              match p_chain f (t :: rest) with
              | Parsed c rest' => Parsed (Compare e c) rest'
              | Invalid => Invalid
              | Beyond => Beyond
              end
          | None => Parsed e (t :: rest)
          end
      | r => r
      end
  end
with p_chain (fuel : nat) (ts : list token) : parsed chain :=
  match fuel with
  | O => Beyond
  | S f =>
      match ts with
      | [] => Invalid
      | t :: rest =>
          match cmpop_of t with
          | None => Invalid
          | Some op =>
              match p_atom f rest with
              | Parsed e [] => Parsed (ChainLast op e) []
              | Parsed e (t' :: rest') =>
                  match cmpop_of t' with
                  | Some _ =>
                      match p_chain f (t' :: rest') with
                      | Parsed c rest'' => Parsed (ChainCons op e c) rest''
                      | r => r
                      end
                  | None => Parsed (ChainLast op e) (t' :: rest')
                  end
              | Invalid => Invalid
              | Beyond => Beyond
              end
          end
      end
  end
with p_atom (fuel : nat) (ts : list token) : parsed expr :=
  match fuel with
  | O => Beyond
  | S f =>
      match ts with
      | TTrue :: rest => after_primary (Constant (SBool true)) rest
      | TFalse :: rest => after_primary (Constant (SBool false)) rest
      | TNumber z :: rest => after_primary (Constant (SInt z)) rest
      | TName id :: rest => after_primary (Name id) rest
      | TLParen :: TRParen :: _ => Beyond
      | TLParen :: rest =>
          match p_or f rest with
          | Parsed e (TRParen :: rest') => after_primary e rest'
          | Parsed _ _ => Invalid
          | r => r
          end
      | _ => Invalid
      end
  end.

Definition parse_fuel : nat := 200.

Definition as_Z (v : scalar) : Z :=
  match v with
  | SBool b => Z.b2z b
  | SInt z => z
  end.

Definition truth (v : scalar) : bool := negb (as_Z v =? 0)%Z.

Definition compare (op : cmpop) (v w : scalar) : bool :=
  match op with
  | Eq => (as_Z v =? as_Z w)%Z
  | LtE => (as_Z v <=? as_Z w)%Z
  | Lt => (as_Z v <? as_Z w)%Z
  end.

(** Evaluation: [None] is [NameError], the one exception the fragment raises
    while it runs.  [and] and [or] hand back the operand that decides them and
    leave the other one unevaluated; [a op b op' c] is [a op b and b op' c]
    with [b] evaluated once. *)
Fixpoint interp (e : expr) : option scalar :=
  match e with
  | Constant v => Some v
  | Name _ => None
  | Not e1 => option_map (fun v => SBool (negb (truth v))) (interp e1)
  | And l r =>
      match interp l with
      | Some v => if truth v then interp r else Some v
      | None => None
      end
  | Or l r =>
      match interp l with
      | Some v => if truth v then Some v else interp r
      | None => None
      end
  | Compare l c =>
      match interp l with
      | Some v => interp_chain v c
      | None => None
      end
  end
with interp_chain (v : scalar) (c : chain) : option scalar :=
  match c with
  | ChainLast op r =>
      match interp r with
      | Some w => Some (SBool (compare op v w))
      | None => None
      end
  | ChainCons op r more =>
      match interp r with
      | Some w => if compare op v w then interp_chain w more else Some (SBool false)
      | None => None
      end
  end.

Definition to_value (v : scalar) : Py.value :=
  match v with
  | SBool b => Py.PyBool b
  | SInt z => Py.PyInt z
  end.

Definition run (e : expr) : Py.eval_result :=
  match interp e with
  | Some v => Py.Value (to_value v)
  | None => Py.Error Py.NameError
  end.

End PyExpr.

(** [eval(s)] on the fragment; leading spaces are skipped by the lexer as
    [eval] strips them. *)
Definition py_eval (s : string) : option Py.eval_result :=
  match PyExpr.lex s with
  | None => None
  | Some ts =>
      match PyExpr.p_or PyExpr.parse_fuel ts with
      | PyExpr.Parsed e [] => Some (PyExpr.run e)
      | PyExpr.Parsed _ (_ :: _) => Some (Py.Error Py.SyntaxError)
      | PyExpr.Invalid => Some (Py.Error Py.SyntaxError)
      | PyExpr.Beyond => None
      end
  end.

(** An interpreter [eval] behaves on the fragment as [py_eval] says. *)
Definition agrees_with_python (eval : string -> Py.eval_result) : Prop :=
  forall s r, py_eval s = Some r -> eval s = r.

(** [py_eval], with every string outside the fragment made to raise. *)
Definition fragment_eval (s : string) : Py.eval_result :=
  match py_eval s with
  | Some r => r
  | None => Py.Error Py.OtherError
  end.

(** ** Notions the statements use *)

(** The [k] bits of the row index [i], most significant first: position [b]
    holds bit [k - 1 - b] of [i]. *)
Definition index_bits (k i : nat) : list bool :=
  map (fun b => Nat.testbit i (k - 1 - b)) (seq 0 k).

(** Code-point order on one-character strings. *)
Definition char_lt (a b : ascii) : Prop := Py.code a < Py.code b.

(** A result that is a truth value. *)
Definition is_bit (z : Z) : Prop := z = 0%Z \/ z = 1%Z.

Definition is_bitb (z : Z) : bool := (z =? 0)%Z || (z =? 1)%Z.

(** A pattern of exactly four truth values. *)
Definition four_bits (pattern : list Z) : bool :=
  (length pattern =? 4) && forallb is_bitb pattern.

(** The strings [create_truth_table] has [eval] read for [self], one per row,
    and whether all of them lie in the fragment [py_eval] covers. *)
Definition eval_inputs (self : LogicalExpression) : list (option string) :=
  map (fun combination =>
         match substitute (variables self)
                 (Py.dict_zip (variables self) combination) (parsed_expr self) with
         | Returns expr => Some (eval_input expr)
         | Raises _ => None
         end)
      (Py.product [false; true] (length (variables self))).

Definition in_fragment (self : LogicalExpression) : bool :=
  forallb (fun i => match i with
                    | Some s => match py_eval s with Some _ => true | None => false end
                    | None => true
                    end)
          (eval_inputs self).

(** What [evaluate] returns once the substitution loop has run through with
    the string [expr]: the integer of the value [eval] hands back, and 0 where
    [eval] or [int] raises. *)
Definition evaluated (eval : string -> Py.eval_result) (expr : string) : Z :=
  match eval (eval_input expr) with
  | Py.Value result =>
      match Py.int result with
      | Some z => z
      | None => 0%Z
      end
  | Py.Error _ => 0%Z
  end.

(** The result column of the row for [combination]. *)
Definition result_of (eval : string -> Py.eval_result) (self : LogicalExpression)
    (combination : list bool) : Z :=
  match evaluate eval self (Py.dict_zip (variables self) combination) with
  | Returns z => z
  | Raises _ => 0%Z
  end.

(** The classification on display, if any. *)
Definition classification_of (g : generated) : option classification :=
  match g with
  | Displayed _ _ (Some report) => Some (classified report)
  | _ => None
  end.

(** Whether the run on [entry] stays inside the fragment and ends with the
    classification [expected] on display. *)
Definition classifies (entry : string) (expected : classification) : bool :=
  in_fragment (new_LogicalExpression (Py.strip entry)) &&
  match classification_of (generate_truth_table fragment_eval entry) with
  | Some Tautology => match expected with Tautology => true | _ => false end
  | Some Contradiction => match expected with Contradiction => true | _ => false end
  | Some Contingency => match expected with Contingency => true | _ => false end
  | None => false
  end.

(** The rows and the operator name on display, if any. *)
Definition table_of (g : generated) : option (list (list Z) * option string) :=
  match g with
  | Displayed _ rows (Some report) => Some (rows, binary_operation report)
  | _ => None
  end.

(** The text [X op Y] for a keyword [op]. *)
Definition binary (X : ascii) (op : string) (Y : ascii) : string :=
  String X (" " ++ op ++ " " ++ String Y "").

Definition shows (entry : string) (rows : list (list Z)) (name : string) : bool :=
  in_fragment (new_LogicalExpression (Py.strip entry)) &&
  match table_of (generate_truth_table fragment_eval entry) with
  | Some (rows', Some name') =>
      (if list_eq_dec (list_eq_dec Z.eq_dec) rows rows' then true else false)
      && String.eqb name name'
  | _ => false
  end.

(** The three connectives that work, on the variables [X] and [Y]. *)
Definition connectives_shown (X Y : ascii) : bool :=
  shows (binary X "AND" Y) [[0; 0; 0]; [0; 1; 0]; [1; 0; 0]; [1; 1; 1]]%Z
        "Conjunction (AND)" &&
  shows (binary X "OR" Y) [[0; 0; 0]; [0; 1; 1]; [1; 0; 1]; [1; 1; 1]]%Z
        "Disjunction (OR)" &&
  shows (binary X "IFF" Y) [[0; 0; 1]; [0; 1; 0]; [1; 0; 0]; [1; 1; 1]]%Z
        "Biconditional (XNOR)".

(** The quick examples of the program that mention the letter A. *)
Definition examples_with_A : list string :=
  [ "A OR NOT A"; "A AND NOT A"; "NOT (A AND B) IFF (NOT A OR NOT B)";
    "A IMPLIES B"; "(A OR B) AND NOT (A AND B)"; "(A AND B) OR (NOT A AND C)" ].

(** The texts [V OR NOT V] and [V AND NOT V]. *)
Definition or_not (V : ascii) : string :=
  String V " OR NOT " ++ String V "".

Definition and_not (V : ascii) : string :=
  String V " AND NOT " ++ String V "".

(** The upper-case letters that are variables, the other ASCII letters, and
    all of them. *)
Definition upper_variable_letters : list ascii := Py.chars "BCGHJKLMPQSVWXYZ".

Definition other_letters : list ascii :=
  Py.chars "ADEFINORTUabcdefghijklmnopqrstuvwxyz".

Definition letters : list ascii :=
  (upper_variable_letters ++ other_letters)%list.

(** Whether [<=] occurs in a string. *)
Fixpoint has_le (s : string) : bool :=
  match s with
  | EmptyString => false
  | String c s' =>
      (Ascii.eqb c "<" && match s' with String d _ => Ascii.eqb d "=" | EmptyString => false end)
      || has_le s'
  end.

Definition starts_with_eq (s : string) : bool :=
  match s with String d _ => Ascii.eqb d "=" | EmptyString => false end.


(** ** Replacement in a text made of pieces *)

(** Whether the scan of [replace old] over [s], entered with [skip]
    characters still to jump, ends exactly at the end of [s] and never stops
    on a rest of [s] that only begins [old]: what follows [s] then cannot
    change what is replaced inside [s]. *)
Fixpoint splits_from (old : string) (skip : nat) (s : string) : bool :=
  match s with
  | EmptyString => skip =? 0
  | String c s' =>
      match skip with
      | S k => splits_from old k s'
      | O =>
          if prefix old s
          then splits_from old (String.length old - 1) s'
          else negb (prefix s old) && splits_from old 0 s'
      end
  end.

Definition splits (old s : string) : bool := splits_from old 0 s.

(** A sequence of replacements, first to last. *)
Definition apply_stages (stages : list (string * string)) (s : string) : string :=
  fold_left (fun s stage => Py.replace (fst stage) (snd stage) s) stages s.

Fixpoint stages_split (stages : list (string * string)) (s : string) : bool :=
  match stages with
  | [] => true
  | (old, new) :: rest => splits old s && stages_split rest (Py.replace old new s)
  end.

Fixpoint join (pieces : list string) : string :=
  match pieces with
  | [] => EmptyString
  | p :: rest => p ++ join rest
  end.

(** ** Logical formulas and their texts

    The expressions the program is meant for: constants, variables, [NOT],
    [AND], [OR], [IFF] and parentheses.  [FParen] keeps the parentheses of
    the text; [sem] is the truth value under an assignment. *)

Inductive formula : Type :=
  | FConst (b : bool)
  | FVar (v : ascii)
  | FNot (f : formula)
  | FAnd (f g : formula)
  | FOr (f g : formula)
  | FIff (f g : formula)
  | FParen (f : formula).

Fixpoint sem (rho : ascii -> bool) (f : formula) : bool :=
  match f with
  | FConst b => b
  | FVar v => rho v
  | FNot a => negb (sem rho a)
  | FAnd a b => sem rho a && sem rho b
  | FOr a b => sem rho a || sem rho b
  | FIff a b => Bool.eqb (sem rho a) (sem rho b)
  | FParen a => sem rho a
  end.

Fixpoint size (f : formula) : nat :=
  match f with
  | FConst _ | FVar _ => 1
  | FNot a | FParen a => S (size a)
  | FAnd a b | FOr a b | FIff a b => S (size a + size b)
  end.

Fixpoint letters_of (f : formula) : list ascii :=
  match f with
  | FConst _ => []
  | FVar v => [v]
  | FNot a | FParen a => letters_of a
  | FAnd a b | FOr a b | FIff a b => (letters_of a ++ letters_of b)%list
  end.

(** How tightly the outermost connective binds. *)
Definition level (f : formula) : nat :=
  match f with
  | FOr _ _ => 0
  | FAnd _ _ => 1
  | FNot _ => 2
  | FIff _ _ => 3
  | _ => 4
  end.

(** The formulas whose text, written without further parentheses, is read
    back as the same formula: [OR] and [AND] group to the left, an operand
    of [AND] is no [OR], an operand of [NOT] is neither, and the two sides of
    [IFF] are constants, variables or parenthesised. *)
Fixpoint grammatical (f : formula) : bool :=
  match f with
  | FConst _ | FVar _ => true
  | FNot a => (2 <=? level a) && grammatical a
  | FAnd a b => (1 <=? level a) && (2 <=? level b) && grammatical a && grammatical b
  | FOr a b => (1 <=? level b) && grammatical a && grammatical b
  | FIff a b => (4 <=? level a) && (4 <=? level b) && grammatical a && grammatical b
  | FParen a => grammatical a
  end.

Inductive symbol : Type :=
  | KAnd | KOr | KNot | KIff | KOpen | KClose
  | KVar (v : ascii)
  | KConst (b : bool).

Fixpoint symbols (f : formula) : list symbol :=
  match f with
  | FConst b => [KConst b]
  | FVar v => [KVar v]
  | FNot a => KNot :: symbols a
  | FAnd a b => (symbols a ++ KAnd :: symbols b)%list
  | FOr a b => (symbols a ++ KOr :: symbols b)%list
  | FIff a b => (symbols a ++ KIff :: symbols b)%list
  | FParen a => (KOpen :: symbols a ++ [KClose])%list
  end.

(** A symbol as typed (spaces left out), as [parse_expression] rewrites it,
    and as [eval] is given it. *)
Definition typed (k : symbol) : string :=
  match k with
  | KAnd => "AND" | KOr => "OR" | KNot => "NOT" | KIff => "IFF"
  | KOpen => "(" | KClose => ")"
  | KVar v => String v ""
  | KConst b => Py.str_int_of_bool b
  end.

Definition rewritten (k : symbol) : string :=
  match k with
  | KAnd => "&" | KOr => "|" | KNot => "~" | KIff => "="
  | KOpen => "(" | KClose => ")"
  | KVar v => String v ""
  | KConst b => Py.str_int_of_bool b
  end.

Definition in_python (k : symbol) : string :=
  match k with
  | KAnd => " and " | KOr => " or " | KNot => " not " | KIff => " == "
  | KOpen => "(" | KClose => ")"
  | KVar v => String v ""
  | KConst b => if b then "True" else "False"
  end.

Definition render (r : symbol -> string) (f : formula) : string :=
  join (map r (symbols f)).

(** The symbol with its variable replaced by its truth value. *)
Definition assign (rho : ascii -> bool) (k : symbol) : symbol :=
  match k with
  | KVar v => KConst (rho v)
  | _ => k
  end.

Definition assign_one (w : ascii) (b : bool) (k : symbol) : symbol :=
  match k with
  | KVar v => if Ascii.eqb v w then KConst b else k
  | _ => k
  end.

(** The replacements of [parse_expression] after [upper], and those of
    [evaluate] around the regular expression. *)
Definition parse_stages : list (string * string) :=
  [ ("AND", "&"); ("OR", "|"); ("NOT", "~"); ("IMPLIES", ">"); ("IFF", "=");
    ("->", ">"); ("<->", "="); ("!", "~"); ("∧", "&"); ("∨", "|"); ("¬", "~");
    ("→", ">"); ("↔", "=") ].

Definition python_stages : list (string * string) :=
  [ ("&", " and "); ("|", " or "); ("~", " not "); (">", " <= "); ("=", " == ");
    ("1", "True"); ("0", "False") ].

(** A symbol whose text goes through a sequence of replacements on its own,
    whatever stands next to it, and comes out as [after]. *)
Definition passes (stages : list (string * string)) (before after : symbol -> string)
    (k : symbol) : bool :=
  stages_split stages (before k) && String.eqb (apply_stages stages (before k)) (after k).

Definition closed_symbols : list symbol :=
  [KAnd; KOr; KNot; KIff; KOpen; KClose; KConst false; KConst true].

Definition written_symbols : list symbol :=
  (closed_symbols ++ map KVar upper_variable_letters)%list.

(** The variables of a formula are upper-case letters outside [operators]. *)
Definition well_named (f : formula) : bool :=
  forallb (fun v => Py.mem v upper_variable_letters) (letters_of f).

(** The assignment a dict stands for, unset keys read as false. *)
Definition valuation (d : Py.dict) (v : ascii) : bool :=
  match d v with
  | Some b => b
  | None => false
  end.

(** ** The formula as Python reads it

    The string [eval] is given for a formula under an assignment, its tokens
    and its syntax tree. *)

Fixpoint python_text (rho : ascii -> bool) (f : formula) : string :=
  match f with
  | FConst b => if b then "True" else "False"
  | FVar v => if rho v then "True" else "False"
  | FNot a => " not " ++ python_text rho a
  | FAnd a b => python_text rho a ++ " and " ++ python_text rho b
  | FOr a b => python_text rho a ++ " or " ++ python_text rho b
  | FIff a b => python_text rho a ++ " == " ++ python_text rho b
  | FParen a => "(" ++ python_text rho a ++ ")"
  end.

Fixpoint python_tokens (rho : ascii -> bool) (f : formula) : list PyExpr.token :=
  match f with
  | FConst b => [if b then PyExpr.TTrue else PyExpr.TFalse]
  | FVar v => [if rho v then PyExpr.TTrue else PyExpr.TFalse]
  | FNot a => PyExpr.TNot :: python_tokens rho a
  | FAnd a b => python_tokens rho a ++ PyExpr.TAnd :: python_tokens rho b
  | FOr a b => python_tokens rho a ++ PyExpr.TOr :: python_tokens rho b
  | FIff a b => python_tokens rho a ++ PyExpr.TEqEq :: python_tokens rho b
  | FParen a => PyExpr.TLParen :: python_tokens rho a ++ [PyExpr.TRParen]
  end%list.

Fixpoint python_tree (rho : ascii -> bool) (f : formula) : PyExpr.expr :=
  match f with
  | FConst b => PyExpr.Constant (PyExpr.SBool b)
  | FVar v => PyExpr.Constant (PyExpr.SBool (rho v))
  | FNot a => PyExpr.Not (python_tree rho a)
  | FAnd a b => PyExpr.And (python_tree rho a) (python_tree rho b)
  | FOr a b => PyExpr.Or (python_tree rho a) (python_tree rho b)
  | FIff a b =>
      PyExpr.Compare (python_tree rho a) (PyExpr.ChainLast PyExpr.Eq (python_tree rho b))
  | FParen a => python_tree rho a
  end.

(** The number of operands of the chain of [AND]s, of [OR]s, at the top. *)
Fixpoint and_chain (f : formula) : nat :=
  match f with
  | FAnd a _ => S (and_chain a)
  | _ => 1
  end.

Fixpoint or_chain (f : formula) : nat :=
  match f with
  | FOr a _ => S (or_chain a)
  | _ => 1
  end.

(** A text that does not go on the word before it. *)
Definition nonword_head (s : string) : bool :=
  match s with
  | EmptyString => true
  | String c _ => negb (PyExpr.is_word_char c)
  end.

(** The token after an operand ends it. *)
Definition ends_operand (ts : list PyExpr.token) : bool :=
  match ts with
  | [] => true
  | (PyExpr.TLParen | PyExpr.TEqEq | PyExpr.TLessEq | PyExpr.TLess) :: _ => false
  | _ => true
  end.

Definition ends_conjunction (ts : list PyExpr.token) : bool :=
  match ts with
  | PyExpr.TAnd :: _ => false
  | _ => ends_operand ts
  end.

Definition ends_disjunction (ts : list PyExpr.token) : bool :=
  match ts with
  | PyExpr.TOr :: _ => false
  | _ => ends_conjunction ts
  end.

Definition ends_primary (ts : list PyExpr.token) : bool :=
  match ts with
  | PyExpr.TLParen :: _ => false
  | _ => true
  end.

(** What each level of the parser does on the tokens of a formula followed
    by [rest], given the fuel its size asks for. *)
Definition atom_ok (rho : ascii -> bool) (f : formula) : Prop :=
  forall F rest, 5 * size f <= F + 4 -> ends_primary rest = true ->
    PyExpr.p_atom F (python_tokens rho f ++ rest) = PyExpr.Parsed (python_tree rho f) rest.

Definition comparison_ok (rho : ascii -> bool) (f : formula) : Prop :=
  forall F rest, 5 * size f <= F + 3 -> ends_operand rest = true ->
    PyExpr.p_comparison F (python_tokens rho f ++ rest)
    = PyExpr.Parsed (python_tree rho f) rest.

Definition not_ok (rho : ascii -> bool) (f : formula) : Prop :=
  forall F rest, 5 * size f <= F + 2 -> ends_operand rest = true ->
    PyExpr.p_not F (python_tokens rho f ++ rest) = PyExpr.Parsed (python_tree rho f) rest.

Definition and_ok (rho : ascii -> bool) (f : formula) : Prop :=
  forall k rest, 5 * size f <= k + and_chain f + 1 -> ends_operand rest = true ->
    PyExpr.p_and (k + and_chain f) (python_tokens rho f ++ rest)
    = PyExpr.p_and_tail k (python_tree rho f) rest.

Definition or_ok (rho : ascii -> bool) (f : formula) : Prop :=
  forall k rest, 5 * size f <= k + or_chain f -> ends_conjunction rest = true ->
    PyExpr.p_or (k + or_chain f) (python_tokens rho f ++ rest)
    = PyExpr.p_or_tail k (python_tree rho f) rest.

(** ** The table and the report of a formula *)

(** The assignments [create_truth_table] goes through, the assignment a row
    stands for, and the result column of a formula. *)
Definition assignments (self : LogicalExpression) : list (list bool) :=
  Py.product [false; true] (length (variables self)).

Definition row_valuation (self : LogicalExpression) (combination : list bool)
  : ascii -> bool :=
  valuation (Py.dict_zip (variables self) combination).

Definition formula_results (self : LogicalExpression) (f : formula) : list Z :=
  map (fun combination => Z.b2z (sem (row_valuation self combination) f))
      (assignments self).

Definition formula_rows (self : LogicalExpression) (f : formula) : list (list Z) :=
  map (fun combination =>
         map Z.b2z combination ++ [Z.b2z (sem (row_valuation self combination) f)])%list
      (assignments self).

(** The assignments of the table that make the formula true. *)
Definition models (self : LogicalExpression) (f : formula) : list (list bool) :=
  filter (fun combination => sem (row_valuation self combination) f) (assignments self).

(** What [analyze_expression] reports for the result column [results]. *)
Definition report_of (self : LogicalExpression) (results : list Z) : analysis :=
  {| true_count := sum results;
     total_count := Z.of_nat (length results);
     false_count := Z.of_nat (length results) - sum results;
     classified :=
       if (sum results =? Z.of_nat (length results))%Z then Tautology
       else if (Z.of_nat (length results) - sum results
                =? Z.of_nat (length results))%Z then Contradiction
       else Contingency;
     satisfiable := (0 <? sum results)%Z;
     binary_operation :=
       if length (variables self) =? 2
       then Some (get operations results "Custom operation")
       else None |}.

(** ** The satisfying assignments of the report *)

(** [row[-1] == 1]. *)
Definition is_true_row (row : list Z) : bool :=
  match last_item row with
  | Returns r => (r =? 1)%Z
  | Raises _ => false
  end.

(** The loop over [enumerate(self.truth_table_data)] that lists satisfying
    assignments, entered with [count] of them listed: an item is
    [zip(variables, row[:-1])]. *)
Fixpoint listed_from (variables : list ascii) (count : nat) (rows : list (list Z))
  : outcome (list (list (ascii * Z))) :=
  match rows with
  | [] => Returns []
  | row :: rows' =>
      r <- last_item row ;;
      if (r =? 1)%Z && (count <? 5)
      then
        rest <- listed_from variables (S count) rows' ;;
        Returns (combine variables (removelast row) :: rest)
      else listed_from variables count rows'
  end.

(** The satisfiability part of the report: nothing for [true_count <= 0],
    else the assignments listed and the number in [... and n more]. *)
Definition satisfying_assignments (self : LogicalExpression) (rows : list (list Z))
    (true_count : Z) : outcome (option (list (list (ascii * Z)) * option Z)) :=
  if (0 <? true_count)%Z
  then
    listed <- listed_from (variables self) 0 rows ;;
    Returns (Some (listed, if (5 <? true_count)%Z then Some (true_count - 5)%Z else None))
  else Returns None.

(** ** The plots *)




















(** ** Examples *)

(** The expression of the placeholder on the variables [B], [C], [G]. *)
Definition example_text : string := "B AND (C OR NOT G)".

Definition example_formula : formula :=
  FAnd (FVar "B") (FParen (FOr (FVar "C") (FNot (FVar "G")))).

(** The text [X IFF Y AND Z]. *)
Definition iff_and (X Y Z : ascii) : string :=
  String X " IFF " ++ String Y " AND " ++ String Z "".

(** * Properties *)

(** ** The program's examples, run *)

Example parse_example :
  parsed_expr (new_LogicalExpression "A AND (B OR NOT C)") = "A&(B|~C)".
Proof. reflexivity. Qed.

Example parse_symbols :
  parsed_expr (new_LogicalExpression "p ∧ ¬q → (x ↔ y) <-> z") = "P&~Q>(X=Y)<>Z".
Proof. reflexivity. Qed.

Example eval_input_example :
  eval_input "(1|0)&~(1&0)" = "(True or False) and  not (True and False)".
Proof. reflexivity. Qed.

Example conjunction_of_two_variables :
  generate_truth_table fragment_eval "P AND Q"
  = Displayed {| expression := "PANDQ"; variables := ["P"; "Q"]%char;
                 parsed_expr := "P&Q" |}
              [[0; 0; 0]; [0; 1; 0]; [1; 0; 0]; [1; 1; 1]]%Z
              (Some {| true_count := 1; total_count := 4; false_count := 3;
                       classified := Contingency; satisfiable := true;
                       binary_operation := Some "Conjunction (AND)" |}).
Proof. vm_compute. reflexivity. Qed.

Example exclusive_or_of_two_variables :
  generate_truth_table fragment_eval "(P OR Q) AND NOT (P AND Q)"
  = Displayed {| expression := "(PORQ)ANDNOT(PANDQ)"; variables := ["P"; "Q"]%char;
                 parsed_expr := "(P|Q)&~(P&Q)" |}
              [[0; 0; 0]; [0; 1; 1]; [1; 0; 1]; [1; 1; 0]]%Z
              (Some {| true_count := 2; total_count := 4; false_count := 2;
                       classified := Contingency; satisfiable := true;
                       binary_operation := Some "Exclusive disjunction (XOR)" |}).
Proof. vm_compute. reflexivity. Qed.

Example input_required :
  generate_truth_table fragment_eval "   " = InputRequired /\
  generate_truth_table fragment_eval placeholder = InputRequired.
Proof. split; reflexivity. Qed.

(** ** Strings, sets and sorting *)

Lemma code_inj : forall a b, Py.code a = Py.code b -> a = b.
Proof.
  unfold Py.code. intros a b H.
  rewrite <- (ascii_nat_embedding a), <- (ascii_nat_embedding b).
  now rewrite H.
Qed.

Lemma mem_In : forall c l, Py.mem c l = true <-> In c l.
Proof.
  intros c l. unfold Py.mem. rewrite existsb_exists. split.
  - intros [x [Hin Heq]]. apply Ascii.eqb_eq in Heq. now subst.
  - intros Hin. exists c. split; [assumption | apply Ascii.eqb_refl].
Qed.

Lemma In_insert_sorted : forall c l x,
  In x (Py.insert_sorted c l) <-> x = c \/ In x l.
Proof.
  intros c l x. induction l as [| d l IH]; simpl.
  - intuition.
  - destruct (Py.code c <=? Py.code d); simpl; [| rewrite IH]; intuition.
Qed.

Lemma In_sorted : forall l x, In x (Py.sorted l) <-> In x l.
Proof.
  induction l as [| a l IH]; intros x; simpl.
  - reflexivity.
  - rewrite In_insert_sorted, IH. intuition.
Qed.

Lemma insert_sorted_strict : forall c l,
  StronglySorted char_lt l -> ~ In c l ->
  StronglySorted char_lt (Py.insert_sorted c l).
Proof.
  intros c l Hs. induction Hs as [| d l Hs IH Hd]; intros Hnin; simpl.
  - repeat constructor.
  - destruct (Py.code c <=? Py.code d) eqn:Hle.
    + apply Nat.leb_le in Hle.
      assert (Hlt : char_lt c d).
      { unfold char_lt. destruct (Nat.eq_dec (Py.code c) (Py.code d)) as [E | E].
        - apply code_inj in E. subst. exfalso. apply Hnin. now left.
        - lia. }
      constructor; [now constructor |].
      constructor; [assumption |].
      rewrite Forall_forall in Hd |- *. intros x Hx.
      specialize (Hd x Hx). unfold char_lt in *. lia.
    + apply Nat.leb_gt in Hle.
      constructor.
      * apply IH. intros Hin. apply Hnin. now right.
      * rewrite Forall_forall in Hd |- *. intros x Hx.
        apply In_insert_sorted in Hx. destruct Hx as [-> | Hx]; [exact Hle | now apply Hd].
Qed.

Lemma sorted_strict : forall l,
  NoDup l -> StronglySorted char_lt (Py.sorted l).
Proof.
  induction 1 as [| a l Hnin Hnd IH]; simpl.
  - constructor.
  - apply insert_sorted_strict; [assumption |].
    now rewrite In_sorted.
Qed.

Lemma strict_NoDup : forall l, StronglySorted char_lt l -> NoDup l.
Proof.
  induction 1 as [| a l Hs IH Ha]; constructor; [| assumption].
  intros Hin. rewrite Forall_forall in Ha. specialize (Ha a Hin).
  unfold char_lt in Ha. lia.
Qed.

Lemma In_chars_remove_spaces : forall s c,
  In c (Py.chars (Py.replace " " "" s)) <-> In c (Py.chars s) /\ c <> " "%char.
Proof.
  unfold Py.replace. induction s as [| a s IH]; intros c.
  - simpl. tauto.
  - cbn [Py.replace_from]. unfold prefix at 1.
    destruct (ascii_dec " " a) as [<- | Hne].
    + assert (Hp : prefix "" s = true) by (destruct s; reflexivity).
      fold prefix. rewrite Hp. cbn [String.length Nat.sub append].
      rewrite IH. simpl. intuition congruence.
    + simpl. rewrite IH. intuition congruence.
Qed.

Lemma In_extract_variables : forall s c,
  In c (extract_variables s) <->
  In c (Py.chars s) /\ Py.is_letter c = true /\ ~ In c operators.
Proof.
  intros s c. unfold extract_variables, Py.set_of, Py.findall_letters.
  rewrite In_sorted, nodup_In, filter_In, filter_In, negb_true_iff.
  pose proof (mem_In c operators) as Hm.
  destruct (Py.mem c operators); intuition discriminate.
Qed.

Lemma variables_strictly_sorted : forall text,
  StronglySorted char_lt (variables (new_LogicalExpression text)).
Proof. intros text. apply sorted_strict. apply NoDup_nodup. Qed.

Lemma In_variables : forall text c,
  In c (variables (new_LogicalExpression text)) <->
  In c (Py.chars text) /\ Py.is_letter c = true /\ ~ In c operators.
Proof.
  intros text c. cbn [new_LogicalExpression variables].
  rewrite In_extract_variables, In_chars_remove_spaces.
  split; [tauto |]. intros [H1 [H2 H3]]. repeat split; try assumption.
  intros ->. discriminate H2.
Qed.

(** C9.  For every text, the variable list of the expression built from it is
    strictly increasing in code-point order (so sorted and duplicate-free),
    holds none of the ten letters A, D, E, F, I, N, O, R, T, U, and holds
    every other ASCII letter of the text, every lower-case letter included. *)
Theorem extract_variables_sorted_distinct_letters : forall text : string,
  let vars := variables (new_LogicalExpression text) in
  StronglySorted char_lt vars /\
  NoDup vars /\
  (forall c, In c ["A"; "D"; "E"; "F"; "I"; "N"; "O"; "R"; "T"; "U"]%char -> ~ In c vars) /\
  (forall c, In c vars <->
             In c (Py.chars text) /\ Py.is_letter c = true /\ ~ In c operators) /\
  (forall c, In c (Py.chars text) -> Py.in_range "a" "z" c = true -> In c vars).
Proof.
  intros text vars.
  pose proof (variables_strictly_sorted text) as Hs.
  pose proof (In_variables text) as Hin. fold vars in Hs, Hin.
  split; [exact Hs |]. split; [now apply strict_NoDup |].
  split; [| split; [exact Hin |]].
  - intros c Hc Hv. apply Hin in Hv. destruct Hv as [_ [_ Hno]]. apply Hno.
    unfold operators. simpl in Hc |- *. tauto.
  - intros c Hc Hlow. apply Hin. split; [assumption |].
    split.
    + unfold Py.is_letter. rewrite Hlow. apply orb_true_r.
    + intros Hop. unfold operators in Hop. simpl in Hop.
      repeat (destruct Hop as [<- | Hop]; [discriminate Hlow |]). exact Hop.
Qed.

(** ** The enumeration order of [itertools.product] *)

Lemma seq_double : forall (A : Type) (f : nat -> A) n,
  map f (seq 0 (2 * n)) = flat_map (fun i => [f (2 * i); f (2 * i + 1)]) (seq 0 n).
Proof.
  intros A f n. induction n as [| n IH].
  - reflexivity.
  - replace (2 * S n) with (S (S (2 * n))) by lia.
    rewrite (seq_S (S (2 * n))), (seq_S (2 * n)), (seq_S n).
    rewrite !map_app, flat_map_app, IH. simpl.
    rewrite <- app_assoc. simpl.
    replace (n + (n + 0)) with (2 * n) by lia.
    replace (2 * n + 1) with (S (2 * n)) by lia.
    reflexivity.
Qed.

Lemma index_bits_succ : forall k i (b : bool),
  index_bits (S k) (2 * i + Nat.b2n b) = (index_bits k i ++ [b])%list.
Proof.
  intros k i b. unfold index_bits.
  rewrite seq_S, map_app. cbn [map]. f_equal.
  - apply map_ext_in. intros a Ha. apply in_seq in Ha.
    replace (S k - 1 - a) with (S (k - 1 - a)) by lia.
    destruct b; simpl Nat.b2n.
    + apply Nat.testbit_odd_succ. lia.
    + rewrite Nat.add_0_r. apply Nat.testbit_even_succ. lia.
  - replace (S k - 1 - (0 + k)) with 0 by lia.
    destruct b; simpl Nat.b2n.
    + now rewrite Nat.testbit_odd_0.
    + now rewrite Nat.add_0_r, Nat.testbit_even_0.
Qed.

Lemma product_bool_index_bits : forall k,
  Py.product [false; true] k = map (index_bits k) (seq 0 (2 ^ k)).
Proof.
  induction k as [| k IH].
  - reflexivity.
  - cbn [Py.product]. rewrite IH.
    rewrite Nat.pow_succ_r', seq_double, flat_map_concat_map, map_map,
      <- flat_map_concat_map.
    apply flat_map_ext. intros i. cbn [map].
    rewrite <- (index_bits_succ k i false), <- (index_bits_succ k i true).
    simpl Nat.b2n. now rewrite Nat.add_0_r.
Qed.

Lemma length_index_bits : forall k i, length (index_bits k i) = k.
Proof. intros k i. unfold index_bits. now rewrite length_map, length_seq. Qed.




Lemma index_bits_surj : forall k (c : list bool),
  length c = k -> exists i, i < 2 ^ k /\ index_bits k i = c.
Proof.
  induction k as [| k IH]; intros c Hlen.
  - destruct c; [| discriminate]. exists 0. split; [simpl; lia | reflexivity].
  - destruct (exists_last (l := c)) as [c' [b Hc]].
    { intros ->. discriminate. }
    subst c. rewrite length_app in Hlen. simpl in Hlen.
    destruct (IH c') as [i [Hi Hbits]]; [lia |].
    exists (2 * i + Nat.b2n b). split.
    + rewrite Nat.pow_succ_r'. destruct b; simpl Nat.b2n; lia.
    + now rewrite index_bits_succ, Hbits.
Qed.

(** ** Loops that can raise *)

Lemma fold_left_raised : forall (A B : Type) (step : outcome B -> A -> outcome B) xs e,
  (forall x, step (Raises e) x = Raises e) ->
  fold_left step xs (Raises e) = Raises e.
Proof.
  intros A B step xs e Hstep. induction xs as [| x xs IH]; simpl.
  - reflexivity.
  - now rewrite Hstep.
Qed.

(** The loop that appends one computed row per element is the comprehension
    over the elements. *)
Lemma fold_left_append : forall (A B : Type) (f : A -> outcome B) xs init,
  fold_left (fun acc x => data <- acc ;; row <- f x ;; Returns (data ++ [row])%list)
            xs (Returns init)
  = (rows <- for_each f xs ;; Returns (init ++ rows)%list).
Proof.
  intros A B f xs. induction xs as [| x xs IH]; intros init.
  - simpl. now rewrite app_nil_r.
  - cbn [fold_left for_each bind]. destruct (f x) as [row | e]; cbn [bind].
    + rewrite IH. destruct (for_each f xs) as [rows | e]; cbn [bind].
      * now rewrite <- app_assoc.
      * reflexivity.
    + now apply fold_left_raised.
Qed.

Lemma for_each_returns : forall (A B : Type) (f : A -> outcome B) (g : A -> B) xs,
  (forall x, In x xs -> f x = Returns (g x)) ->
  for_each f xs = Returns (map g xs).
Proof.
  intros A B f g xs. induction xs as [| x xs IH]; intros H.
  - reflexivity.
  - cbn [for_each map]. rewrite (H x (or_introl eq_refl)). cbn [bind].
    rewrite IH; [reflexivity |]. intros y Hy. apply H. now right.
Qed.

(** ** Assignments *)

Lemma dict_zip_from_covers : forall kvs (d : Py.dict) k,
  In k (map fst kvs) \/ d k <> None ->
  fold_left (fun d kv => Py.dict_set (fst kv) (snd kv) d) kvs d k <> None.
Proof.
  induction kvs as [| [k1 v1] kvs IH]; intros d k H.
  - simpl. destruct H as [[] | H]. exact H.
  - cbn [fold_left fst snd]. apply IH. cbn [map fst] in H.
    destruct H as [[<- | H] | H].
    + right. unfold Py.dict_set. now rewrite Ascii.eqb_refl.
    + now left.
    + right. unfold Py.dict_set. destruct (Ascii.eqb k k1); [discriminate | exact H].
Qed.

Lemma map_fst_combine : forall (A B : Type) (l : list A) (l' : list B),
  length l = length l' -> map fst (combine l l') = l.
Proof.
  induction l as [| a l IH]; intros [| b l'] H; try discriminate; simpl.
  - reflexivity.
  - f_equal. apply IH. now injection H.
Qed.

(** [dict(zip(keys, values))] has an entry for every key when there are as
    many values as keys. *)
Lemma dict_zip_covers : forall keys values k,
  length keys = length values -> In k keys -> Py.dict_zip keys values k <> None.
Proof.
  intros keys values k Hlen Hin. unfold Py.dict_zip.
  apply dict_zip_from_covers. left. now rewrite map_fst_combine.
Qed.

Section EvaluationFacts.

Variable eval : string -> Py.eval_result.

Lemma substitute_covered : forall vars (d : Py.dict) expr,
  (forall var, In var vars -> d var <> None) ->
  exists expr', substitute vars d expr = Returns expr'.
Proof.
  unfold substitute. induction vars as [| v vars IH]; intros d expr H.
  - now exists expr.
  - cbn [fold_left bind]. destruct (d v) as [b |] eqn:E.
    + apply IH. intros var Hvar. apply H. now right.
    + exfalso. apply (H v); [now left | exact E].
Qed.

Lemma substitute_missing : forall vars (d : Py.dict) expr,
  (exists var, In var vars /\ d var = None) ->
  exists key, In key vars /\ d key = None /\
              substitute vars d expr = Raises (KeyError key).
Proof.
  unfold substitute. induction vars as [| v vars IH]; intros d expr [var [Hin Hnone]].
  - destruct Hin.
  - cbn [fold_left bind]. destruct (d v) as [b |] eqn:E.
    + destruct Hin as [-> | Hin]; [congruence |].
      destruct (IH d (Py.replace (String v "") (Py.str_int_of_bool b) expr)) as [key [H1 [H2 H3]]].
      { now exists var. }
      exists key. repeat split; [now right | assumption | assumption].
    + exists v. repeat split; [now left | assumption |].
      apply fold_left_raised. reflexivity.
Qed.

Lemma evaluate_after_substitute : forall self d expr,
  substitute (variables self) d (parsed_expr self) = Returns expr ->
  evaluate eval self d = Returns (evaluated eval expr).
Proof.
  intros self d expr H. unfold evaluate, evaluated. rewrite H. cbn [bind].
  destruct (eval (eval_input expr)) as [v | e]; [| reflexivity].
  destruct (Py.int v); reflexivity.
Qed.

Lemma evaluate_row : forall self combination,
  length combination = length (variables self) ->
  evaluate eval self (Py.dict_zip (variables self) combination)
  = Returns (result_of eval self combination).
Proof.
  intros self c Hlen. unfold result_of.
  destruct (substitute_covered (variables self)
              (Py.dict_zip (variables self) c) (parsed_expr self)) as [expr He].
  { intros var Hvar. now apply dict_zip_covers. }
  now rewrite (evaluate_after_substitute _ _ _ He).
Qed.

Lemma create_truth_table_closed_form : forall self,
  create_truth_table eval self
  = Returns (map (fun i =>
                    let combination := index_bits (length (variables self)) i in
                    map Z.b2z combination ++ [result_of eval self combination])%list
                 (seq 0 (2 ^ length (variables self)))).
Proof.
  intros self. unfold create_truth_table.
  rewrite (fold_left_append _ _ (table_row eval self)).
  rewrite product_bool_index_bits.
  rewrite (for_each_returns _ _ (table_row eval self)
             (fun c => (map Z.b2z c ++ [result_of eval self c])%list)).
  - cbn [bind app]. now rewrite map_map.
  - intros c Hc. apply in_map_iff in Hc. destruct Hc as [i [<- _]].
    unfold table_row. rewrite evaluate_row; [reflexivity |].
    apply length_index_bits.
Qed.

End EvaluationFacts.


(** ** The analyzer *)

Lemma fold_left_add : forall l a, fold_left Z.add l a = (a + sum l)%Z.
Proof.
  unfold sum. induction l as [| x l IH]; intros a; simpl.
  - lia.
  - rewrite IH, (IH x). lia.
Qed.

Lemma sum_cons : forall x l, sum (x :: l) = (x + sum l)%Z.
Proof. intros x l. unfold sum at 1. simpl. apply fold_left_add. Qed.

(** On truth values the sum counts the true ones. *)
Lemma sum_bits : forall l,
  Forall is_bit l ->
  (0 <= sum l <= Z.of_nat (length l))%Z /\
  (sum l = Z.of_nat (length l) <-> Forall (fun r => r = 1%Z) l) /\
  (sum l = 0%Z <-> Forall (fun r => r = 0%Z) l).
Proof.
  induction 1 as [| x l Hx Hl [Hrange [Hall1 Hall0]]].
  - repeat split; try constructor; reflexivity.
  - rewrite sum_cons. cbn [length]. rewrite Nat2Z.inj_succ.
    destruct Hx as [-> | ->].
    + split; [lia |]. split; split.
      * intros E. lia.
      * intros E. inversion E. discriminate.
      * intros E. constructor; [reflexivity |]. apply Hall0. lia.
      * intros E. inversion E; subst. apply Hall0 in H2. lia.
    + split; [lia |]. split; split.
      * intros E. constructor; [reflexivity |]. apply Hall1. lia.
      * intros E. inversion E; subst. apply Hall1 in H2. lia.
      * intros E. lia.
      * intros E. inversion E. discriminate.
Qed.

Lemma for_each_length : forall (A B : Type) (f : A -> outcome B) xs ys,
  for_each f xs = Returns ys -> length ys = length xs.
Proof.
  intros A B f. induction xs as [| x xs IH]; intros ys H.
  - injection H as <-. reflexivity.
  - cbn [for_each] in H. destruct (f x) as [y | e]; [| discriminate].
    cbn [bind] in H. destruct (for_each f xs) as [ys' | e]; [| discriminate].
    cbn [bind] in H. injection H as <-. simpl. f_equal. now apply IH.
Qed.

Lemma identify_binary_operation_get : forall rows results,
  for_each last_item rows = Returns results ->
  identify_binary_operation rows
  = Returns (get operations results "Custom operation").
Proof.
  intros rows results H. unfold identify_binary_operation. now rewrite H.
Qed.

(** The report [analyze_expression] builds once every row has a last item. *)
Lemma analyze_expression_report : forall self rows results,
  rows <> [] ->
  for_each last_item rows = Returns results ->
  analyze_expression self rows
  = Returns (Some
      {| true_count := sum results;
         total_count := Z.of_nat (length results);
         false_count := Z.of_nat (length results) - sum results;
         classified :=
           if (sum results =? Z.of_nat (length results))%Z then Tautology
           else if (Z.of_nat (length results) - sum results
                    =? Z.of_nat (length results))%Z then Contradiction
           else Contingency;
         satisfiable := (0 <? sum results)%Z;
         binary_operation :=
           if length (variables self) =? 2
           then Some (get operations results "Custom operation")
           else None |}).
Proof.
  intros self rows results Hne H. unfold analyze_expression.
  destruct rows as [| row rows]; [contradiction |].
  rewrite H. cbn [bind].
  rewrite (identify_binary_operation_get _ _ H).
  destruct (length (variables self) =? 2); reflexivity.
Qed.

(** On truth values the comparison of the sum with the length is the
    classification by the rows: for every non-empty sequence of rows whose
    results are 0 or 1, [analyze_expression] answers Tautology exactly when
    every result is 1, Contradiction exactly when every result is 0, and
    Contingency exactly when neither is the case. *)
Lemma classification_of_truth_values :
  forall (self : LogicalExpression) (rows : list (list Z)) (results : list Z),
    rows <> [] ->
    for_each last_item rows = Returns results ->
    Forall is_bit results ->
    exists report,
      analyze_expression self rows = Returns (Some report) /\
      (classified report = Tautology <-> Forall (fun r => r = 1%Z) results) /\
      (classified report = Contradiction <-> Forall (fun r => r = 0%Z) results) /\
      (classified report = Contingency <->
         ~ Forall (fun r => r = 1%Z) results /\ ~ Forall (fun r => r = 0%Z) results).
Proof.
  intros self rows results Hne Hres Hbits.
  eexists. split; [exact (analyze_expression_report self rows results Hne Hres) |].
  cbn [classified].
  destruct (sum_bits results Hbits) as [Hrange [Hall1 Hall0]].
  assert (Hpos : (0 < Z.of_nat (length results))%Z).
  { rewrite (for_each_length _ _ _ _ _ Hres). destruct rows; [contradiction | simpl; lia]. }
  destruct (Z.eqb_spec (sum results) (Z.of_nat (length results))) as [E1 | E1].
  - assert (H1 : Forall (fun r => r = 1%Z) results) by now apply Hall1.
    assert (H0 : ~ Forall (fun r => r = 0%Z) results).
    { intros H0. apply Hall0 in H0. lia. }
    repeat split; intros; try assumption; try discriminate; tauto.
  - assert (H1 : ~ Forall (fun r => r = 1%Z) results).
    { intros H1. apply Hall1 in H1. contradiction. }
    destruct (Z.eqb_spec (Z.of_nat (length results) - sum results)
                (Z.of_nat (length results))) as [E0 | E0].
    + assert (H0 : Forall (fun r => r = 0%Z) results) by (apply Hall0; lia).
      repeat split; intros; try assumption; try discriminate; tauto.
    + assert (H0 : ~ Forall (fun r => r = 0%Z) results).
      { intros H0. apply Hall0 in H0. lia. }
      repeat split; intros; try assumption; try discriminate; tauto.
Qed.

(** ** From the fragment to every interpreter that agrees with it *)

Lemma fragment_eval_agrees : agrees_with_python fragment_eval.
Proof. intros s r H. unfold fragment_eval. now rewrite H. Qed.

Lemma In_eval_inputs : forall self combination expr,
  In combination (Py.product [false; true] (length (variables self))) ->
  substitute (variables self) (Py.dict_zip (variables self) combination)
    (parsed_expr self) = Returns expr ->
  In (Some (eval_input expr)) (eval_inputs self).
Proof.
  intros self c expr Hc Hs. unfold eval_inputs. apply in_map_iff.
  exists c. split; [| exact Hc]. now rewrite Hs.
Qed.

(** [create_truth_table] depends on [eval] only through the strings of
    [eval_inputs]. *)
Lemma create_truth_table_ext : forall eval eval' self,
  (forall s, In (Some s) (eval_inputs self) -> eval s = eval' s) ->
  create_truth_table eval self = create_truth_table eval' self.
Proof.
  intros eval eval' self H.
  rewrite !create_truth_table_closed_form. f_equal.
  apply map_ext_in. intros i Hi. cbv zeta. f_equal. f_equal.
  set (c := index_bits (length (variables self)) i).
  assert (Hc : In c (Py.product [false; true] (length (variables self)))).
  { rewrite product_bool_index_bits. now apply in_map. }
  destruct (substitute_covered (variables self)
              (Py.dict_zip (variables self) c) (parsed_expr self)) as [expr He].
  { intros var Hvar. apply dict_zip_covers; [| exact Hvar].
    unfold c. now rewrite length_index_bits. }
  unfold result_of.
  rewrite (evaluate_after_substitute eval _ _ _ He),
          (evaluate_after_substitute eval' _ _ _ He).
  unfold evaluated. now rewrite (H _ (In_eval_inputs _ _ _ Hc He)).
Qed.

Lemma create_truth_table_in_fragment : forall eval self,
  agrees_with_python eval ->
  in_fragment self = true ->
  create_truth_table eval self = create_truth_table fragment_eval self.
Proof.
  intros eval self Hagree Hfrag. apply create_truth_table_ext.
  intros s Hs. unfold in_fragment in Hfrag. rewrite forallb_forall in Hfrag.
  specialize (Hfrag _ Hs). cbv beta iota in Hfrag.
  destruct (py_eval s) as [r |] eqn:E; [| discriminate].
  rewrite (Hagree _ _ E). symmetry. now apply fragment_eval_agrees.
Qed.

Lemma generate_truth_table_in_fragment : forall eval entry,
  agrees_with_python eval ->
  in_fragment (new_LogicalExpression (Py.strip entry)) = true ->
  generate_truth_table eval entry = generate_truth_table fragment_eval entry.
Proof.
  intros eval entry Hagree Hfrag. unfold generate_truth_table.
  now rewrite (create_truth_table_in_fragment eval _ Hagree Hfrag).
Qed.

(** Rewrites one run of the program under [eval] into the run under
    [fragment_eval], checks that every string evaluated lies in the fragment,
    and computes. *)
Ltac run_in_fragment Hagree :=
  first [ rewrite (generate_truth_table_in_fragment _ _ Hagree)
        | rewrite (create_truth_table_in_fragment _ _ Hagree) ];
  [ vm_compute; reflexivity | vm_compute; reflexivity ].

(** ** The classification and the sum of the results *)

Lemma classification_by_the_sum : forall self rows results,
  rows <> [] ->
  for_each last_item rows = Returns results ->
  exists report,
    analyze_expression self rows = Returns (Some report) /\
    true_count report = sum results /\
    total_count report = Z.of_nat (length results) /\
    (classified report = Tautology <-> sum results = Z.of_nat (length results)) /\
    (classified report = Contradiction <-> sum results = 0%Z) /\
    (classified report = Contingency <->
       sum results <> Z.of_nat (length results) /\ sum results <> 0%Z).
Proof.
  intros self rows results Hne Hres.
  eexists. split; [exact (analyze_expression_report self rows results Hne Hres) |].
  cbn [classified true_count total_count].
  assert (Hpos : (0 < Z.of_nat (length results))%Z).
  { rewrite (for_each_length _ _ _ _ _ Hres). destruct rows; [contradiction | simpl; lia]. }
  split; [reflexivity |]. split; [reflexivity |].
  destruct (Z.eqb_spec (sum results) (Z.of_nat (length results))) as [E1 | E1].
  - repeat split; intros; try assumption; try discriminate; lia.
  - destruct (Z.eqb_spec (Z.of_nat (length results) - sum results)
                (Z.of_nat (length results))) as [E0 | E0];
      repeat split; intros; try assumption; try discriminate; lia.
Qed.

(** C2, where the code leaves it.  [analyze_expression] classifies by
    comparing [sum(results)] with [len(results)]: for every non-empty row
    sequence it answers Tautology exactly when the sum of the results is the
    number of rows, Contradiction exactly when the sum is 0, and Contingency
    otherwise.  When every result is 0 or 1 that is the classification by the
    rows: all true, all false, or neither.  [evaluate] also returns other
    integers, and then the sum no longer counts the true rows.  The text
    [NOT B AND 2] has the rows (0, 2) and (1, 0): its result under [B = 1]
    is 0, yet the sum 2 is the number of rows, and the report says Tautology,
    with 2 true assignments and 0 false ones. *)
Theorem tautology_is_decided_by_the_sum :
  forall eval : string -> Py.eval_result,
    agrees_with_python eval ->
    (forall (self : LogicalExpression) (rows : list (list Z)) (results : list Z),
       rows <> [] ->
       for_each last_item rows = Returns results ->
       exists report,
         analyze_expression self rows = Returns (Some report) /\
         (classified report = Tautology <-> sum results = Z.of_nat (length results)) /\
         (classified report = Contradiction <-> sum results = 0%Z) /\
         (classified report = Contingency <->
            sum results <> Z.of_nat (length results) /\ sum results <> 0%Z) /\
         (Forall is_bit results ->
          (classified report = Tautology <-> Forall (fun r => r = 1%Z) results) /\
          (classified report = Contradiction <-> Forall (fun r => r = 0%Z) results) /\
          (classified report = Contingency <->
             ~ Forall (fun r => r = 1%Z) results /\
             ~ Forall (fun r => r = 0%Z) results))) /\
    evaluate eval (new_LogicalExpression "NOT B AND 2") (Py.dict_zip ["B"%char] [false])
    = Returns 2%Z /\
    evaluate eval (new_LogicalExpression "NOT B AND 2") (Py.dict_zip ["B"%char] [true])
    = Returns 0%Z /\
    generate_truth_table eval "NOT B AND 2"
    = Displayed {| expression := "NOTBAND2";
                   variables := ["B"]%char;
                   parsed_expr := "~B&2" |}
                [[0; 2]; [1; 0]]%Z
                (Some {| true_count := 2; total_count := 2; false_count := 0;
                         classified := Tautology; satisfiable := true;
                         binary_operation := None |}).
Proof.
  intros eval Hagree. split; [| split; [| split]].
  - intros self rows results Hne Hres.
    destruct (classification_by_the_sum self rows results Hne Hres)
      as [report [Hreport [_ [_ [Htaut [Hcontra Hconting]]]]]].
    exists report. repeat split; try tauto.
    all: destruct (classification_of_truth_values self rows results Hne Hres H)
        as [report' [Hreport' Hrows]];
      rewrite Hreport in Hreport'; injection Hreport' as <-; tauto.
  - unfold evaluate. cbn [new_LogicalExpression variables parsed_expr].
    change (extract_variables (Py.replace " " "" "NOT B AND 2")) with ["B"%char].
    change (parse_expression (Py.replace " " "" "NOT B AND 2")) with "~B&2".
    change (substitute ["B"%char] (Py.dict_zip ["B"%char] [false]) "~B&2")
      with (Returns "~0&2" : outcome string).
    cbn [bind]. rewrite (Hagree (eval_input "~0&2") (Py.Value (Py.PyInt 2))); reflexivity.
  - unfold evaluate. cbn [new_LogicalExpression variables parsed_expr].
    change (extract_variables (Py.replace " " "" "NOT B AND 2")) with ["B"%char].
    change (parse_expression (Py.replace " " "" "NOT B AND 2")) with "~B&2".
    change (substitute ["B"%char] (Py.dict_zip ["B"%char] [true]) "~B&2")
      with (Returns "~1&2" : outcome string).
    cbn [bind]. rewrite (Hagree (eval_input "~1&2") (Py.Value (Py.PyBool false))); reflexivity.
  - run_in_fragment Hagree.
Qed.

Lemma tautology_is_decided_by_the_sum_witness :
  (forall (self : LogicalExpression) (rows : list (list Z)) (results : list Z),
     rows <> [] ->
     for_each last_item rows = Returns results ->
     exists report,
       analyze_expression self rows = Returns (Some report) /\
       (classified report = Tautology <-> sum results = Z.of_nat (length results)) /\
       (classified report = Contradiction <-> sum results = 0%Z) /\
       (classified report = Contingency <->
          sum results <> Z.of_nat (length results) /\ sum results <> 0%Z) /\
       (Forall is_bit results ->
        (classified report = Tautology <-> Forall (fun r => r = 1%Z) results) /\
        (classified report = Contradiction <-> Forall (fun r => r = 0%Z) results) /\
        (classified report = Contingency <->
           ~ Forall (fun r => r = 1%Z) results /\
           ~ Forall (fun r => r = 0%Z) results))) /\
  evaluate fragment_eval (new_LogicalExpression "NOT B AND 2")
    (Py.dict_zip ["B"%char] [false]) = Returns 2%Z /\
  evaluate fragment_eval (new_LogicalExpression "NOT B AND 2")
    (Py.dict_zip ["B"%char] [true]) = Returns 0%Z /\
  generate_truth_table fragment_eval "NOT B AND 2"
  = Displayed {| expression := "NOTBAND2";
                 variables := ["B"]%char;
                 parsed_expr := "~B&2" |}
              [[0; 2]; [1; 0]]%Z
              (Some {| true_count := 2; total_count := 2; false_count := 0;
                       classified := Tautology; satisfiable := true;
                       binary_operation := None |}).
Proof.
  apply (tautology_is_decided_by_the_sum fragment_eval).
  intros s r H. unfold fragment_eval. rewrite H. reflexivity.
Defined.

(** ** A trailing operator *)

(** The text [A AND] is not rejected: [eval] raises [SyntaxError] on
    ["A and "], [evaluate] turns that into the result 0, and the table and
    its analysis are put on display. *)
Lemma trailing_operator_is_displayed :
  py_eval "A and " = Some (Py.Error Py.SyntaxError) /\
  in_fragment (new_LogicalExpression "A AND") = true /\
  generate_truth_table fragment_eval "A AND"
  = Displayed {| expression := "AAND"; variables := []; parsed_expr := "A&" |}
              [[0%Z]]
              (Some {| true_count := 0; total_count := 1; false_count := 1;
                       classified := Contradiction; satisfiable := false;
                       binary_operation := None |}).
Proof. repeat split; vm_compute; reflexivity. Qed.

(** C4, as the program has it.  Under every interpreter that agrees with
    Python on the fragment, generating the table for [A AND] raises nothing:
    the expression has no variable, its one row holds the result 0 that
    [evaluate] returns when [eval] fails, and it is reported as an
    unsatisfiable contradiction. *)
Theorem trailing_operator_defaults_to_zero :
  forall eval : string -> Py.eval_result,
    agrees_with_python eval ->
    eval (eval_input "A&") = Py.Error Py.SyntaxError /\
    evaluate eval (new_LogicalExpression "A AND") Py.dict_empty = Returns 0%Z /\
    generate_truth_table eval "A AND"
    = Displayed {| expression := "AAND"; variables := []; parsed_expr := "A&" |}
                [[0%Z]]
                (Some {| true_count := 0; total_count := 1; false_count := 1;
                         classified := Contradiction; satisfiable := false;
                         binary_operation := None |}).
Proof.
  intros eval Hagree.
  assert (He : eval (eval_input "A&") = Py.Error Py.SyntaxError).
  { apply Hagree. vm_compute. reflexivity. }
  split; [exact He |]. split.
  - unfold evaluate. cbn [new_LogicalExpression variables parsed_expr].
    change (extract_variables (Py.replace " " "" "A AND")) with (@nil ascii).
    change (parse_expression (Py.replace " " "" "A AND")) with "A&".
    cbn [substitute fold_left bind]. now rewrite He.
  - run_in_fragment Hagree.
Qed.

Lemma trailing_operator_defaults_to_zero_witness :
  fragment_eval (eval_input "A&") = Py.Error Py.SyntaxError /\
  evaluate fragment_eval (new_LogicalExpression "A AND") Py.dict_empty = Returns 0%Z /\
  generate_truth_table fragment_eval "A AND"
  = Displayed {| expression := "AAND"; variables := []; parsed_expr := "A&" |}
              [[0%Z]]
              (Some {| true_count := 0; total_count := 1; false_count := 1;
                       classified := Contradiction; satisfiable := false;
                       binary_operation := None |}).
Proof.
  apply (trailing_operator_defaults_to_zero fragment_eval).
  intros s r H. unfold fragment_eval. rewrite H. reflexivity.
Defined.

(** ** Upper and lower case *)

(** C3, at expressions that mix cases.  [extract_variables] reads the text as
    typed while [parse_expression] upper-cases it: [b] and [B] are two entries
    of the variable list, the column of [b] has no effect on the result, and
    an expression written with [b] alone evaluates to 0 in every row, where
    the same expression written with [B] has the value of [B]. *)
Theorem lower_case_names_another_variable :
  forall eval : string -> Py.eval_result,
    agrees_with_python eval ->
    variables (new_LogicalExpression "b AND B") = ["B"; "b"]%char /\
    parsed_expr (new_LogicalExpression "b AND B") = "B&B" /\
    create_truth_table eval (new_LogicalExpression "b AND B")
    = Returns [[0; 0; 0]; [0; 1; 0]; [1; 0; 1]; [1; 1; 1]]%Z /\
    variables (new_LogicalExpression "B") = ["B"]%char /\
    create_truth_table eval (new_LogicalExpression "B") = Returns [[0; 0]; [1; 1]]%Z /\
    variables (new_LogicalExpression "b") = ["b"]%char /\
    parsed_expr (new_LogicalExpression "b") = "B" /\
    create_truth_table eval (new_LogicalExpression "b") = Returns [[0; 0]; [1; 0]]%Z.
Proof.
  intros eval Hagree.
  repeat split; try (vm_compute; reflexivity); run_in_fragment Hagree.
Qed.

Lemma lower_case_names_another_variable_witness :
  variables (new_LogicalExpression "b AND B") = ["B"; "b"]%char /\
  parsed_expr (new_LogicalExpression "b AND B") = "B&B" /\
  create_truth_table fragment_eval (new_LogicalExpression "b AND B")
  = Returns [[0; 0; 0]; [0; 1; 0]; [1; 0; 1]; [1; 1; 1]]%Z /\
  variables (new_LogicalExpression "B") = ["B"]%char /\
  create_truth_table fragment_eval (new_LogicalExpression "B") = Returns [[0; 0]; [1; 1]]%Z /\
  variables (new_LogicalExpression "b") = ["b"]%char /\
  parsed_expr (new_LogicalExpression "b") = "B" /\
  create_truth_table fragment_eval (new_LogicalExpression "b") = Returns [[0; 0]; [1; 0]]%Z.
Proof.
  apply (lower_case_names_another_variable fragment_eval).
  intros s r H. unfold fragment_eval. rewrite H. reflexivity.
Defined.

(** ** Excluded middle and contradiction, letter by letter *)

Lemma is_letter_In_letters : forall c, Py.is_letter c = true -> In c letters.
Proof.
  intros [[] [] [] [] [] [] [] []] H; vm_compute in H; try discriminate H;
    vm_compute; tauto.
Qed.

Lemma classifies_sound : forall eval entry expected,
  agrees_with_python eval ->
  classifies entry expected = true ->
  classification_of (generate_truth_table eval entry) = Some expected.
Proof.
  intros eval entry expected Hagree H. unfold classifies in H.
  apply andb_true_iff in H. destruct H as [Hfrag H].
  rewrite (generate_truth_table_in_fragment _ _ Hagree Hfrag).
  destruct (classification_of (generate_truth_table fragment_eval entry)) as [[] |];
    destruct expected; try discriminate H; reflexivity.
Qed.

Lemma and_not_classified :
  forallb (fun V => classifies (and_not V) Contradiction) letters = true.
Proof. vm_compute. reflexivity. Qed.

Lemma or_not_classified :
  forallb (fun V => classifies (or_not V) Tautology) upper_variable_letters = true /\
  forallb (fun V => classifies (or_not V) Contradiction) other_letters = true.
Proof. split; vm_compute; reflexivity. Qed.

(** C6, letter by letter.  [V AND NOT V] is a contradiction for every ASCII
    letter [V].  [V OR NOT V] is a tautology for the sixteen upper-case
    letters that are variables; for the ten letters of [operators] and for
    every lower-case letter it is reported as a contradiction: the letter is
    never replaced by a truth value, [eval] raises [NameError], and the one
    result 0 (or both results 0) make the table all false.  [A OR NOT A], the
    program's own tautology example, is among them. *)
Theorem or_not_is_a_tautology_only_for_upper_case_variables :
  forall eval : string -> Py.eval_result,
    agrees_with_python eval ->
    (forall V, Py.is_letter V = true ->
       classification_of (generate_truth_table eval (and_not V)) = Some Contradiction) /\
    (forall V, In V upper_variable_letters ->
       classification_of (generate_truth_table eval (or_not V)) = Some Tautology) /\
    (forall V, In V other_letters ->
       classification_of (generate_truth_table eval (or_not V)) = Some Contradiction) /\
    eval_input "A|~A" = "A or  not A" /\
    eval "A or  not A" = Py.Error Py.NameError /\
    generate_truth_table eval "A OR NOT A"
    = Displayed {| expression := "AORNOTA"; variables := []; parsed_expr := "A|~A" |}
                [[0%Z]]
                (Some {| true_count := 0; total_count := 1; false_count := 1;
                         classified := Contradiction; satisfiable := false;
                         binary_operation := None |}).
Proof.
  intros eval Hagree.
  pose proof and_not_classified as Hand.
  destruct or_not_classified as [Hup Hother].
  rewrite forallb_forall in Hand, Hup, Hother.
  split; [| split; [| split; [| split; [| split]]]].
  - intros V HV. apply classifies_sound; [exact Hagree |].
    apply Hand. now apply is_letter_In_letters.
  - intros V HV. apply classifies_sound; [exact Hagree | now apply Hup].
  - intros V HV. apply classifies_sound; [exact Hagree | now apply Hother].
  - vm_compute. reflexivity.
  - apply Hagree. vm_compute. reflexivity.
  - run_in_fragment Hagree.
Qed.

Lemma or_not_is_a_tautology_only_for_upper_case_variables_witness :
  (forall V, Py.is_letter V = true ->
     classification_of (generate_truth_table fragment_eval (and_not V)) = Some Contradiction) /\
  (forall V, In V upper_variable_letters ->
     classification_of (generate_truth_table fragment_eval (or_not V)) = Some Tautology) /\
  (forall V, In V other_letters ->
     classification_of (generate_truth_table fragment_eval (or_not V)) = Some Contradiction) /\
  eval_input "A|~A" = "A or  not A" /\
  fragment_eval "A or  not A" = Py.Error Py.NameError /\
  generate_truth_table fragment_eval "A OR NOT A"
  = Displayed {| expression := "AORNOTA"; variables := []; parsed_expr := "A|~A" |}
              [[0%Z]]
              (Some {| true_count := 0; total_count := 1; false_count := 1;
                       classified := Contradiction; satisfiable := false;
                       binary_operation := None |}).
Proof.
  apply (or_not_is_a_tautology_only_for_upper_case_variables fragment_eval).
  intros s r H. unfold fragment_eval. rewrite H. reflexivity.
Defined.

(** ** Implication *)

Lemma replace_eq_step : forall c s,
  Py.replace "=" " == " (String c s)
  = if Ascii.eqb c "=" then " == " ++ Py.replace "=" " == " s
    else String c (Py.replace "=" " == " s).
Proof.
  intros c s. unfold Py.replace. cbn [Py.replace_from]. unfold prefix at 1.
  destruct (ascii_dec "=" c) as [<- | Hne].
  - assert (Hp : prefix "" s = true) by (destruct s; reflexivity).
    fold prefix. rewrite Hp. reflexivity.
  - destruct (Ascii.eqb_spec c "=") as [-> | _]; [contradiction | reflexivity].
Qed.

Lemma replace_eq_no_le : forall s,
  has_le (Py.replace "=" " == " s) = false /\
  starts_with_eq (Py.replace "=" " == " s) = false.
Proof.
  induction s as [| c s [IH1 IH2]].
  - split; reflexivity.
  - rewrite replace_eq_step. destruct (Ascii.eqb_spec c "=") as [-> | Hne].
    + split; [| reflexivity]. cbn. exact IH1.
    + split.
      * cbn [has_le]. rewrite IH1. unfold starts_with_eq in IH2. rewrite IH2.
        now rewrite andb_false_r.
      * cbn. now apply Ascii.eqb_neq.
Qed.

Lemma span_app : forall p s a b, Py.span p s = (a, b) -> s = a ++ b.
Proof.
  intros p. induction s as [| c s IH]; intros a b H; cbn [Py.span] in H.
  - injection H as <- <-. reflexivity.
  - destruct (p c).
    + destruct (Py.span p s) as [a' b'] eqn:E. injection H as <- <-.
      cbn. f_equal. now apply IH.
    + injection H as <- <-. reflexivity.
Qed.

Lemma has_le_app : forall a b, has_le b = true -> has_le (a ++ b) = true.
Proof.
  induction a as [| c a IH]; intros b H; cbn [append has_le].
  - exact H.
  - rewrite (IH b H). apply orb_true_r.
Qed.

Lemma match_implication_none : forall s,
  has_le s = false -> Py.match_implication s = None.
Proof.
  intros s H. unfold Py.match_implication.
  destruct (Py.span Py.is_digit s) as [d1 r1] eqn:E1.
  destruct d1 as [| c d1]; [reflexivity |].
  destruct (Py.span Py.is_space r1) as [sp r2] eqn:E2.
  destruct r2 as [| x r2]; [reflexivity |].
  destruct (Ascii.eqb_spec x "<") as [-> | Hx].
  - destruct r2 as [| y r2]; [reflexivity |].
    destruct (Ascii.eqb_spec y "=") as [-> | Hy].
    + exfalso. apply span_app in E1, E2. subst s r1.
      rewrite has_le_app in H; [discriminate |].
      apply has_le_app. reflexivity.
    + destruct y as [[] [] [] [] [] [] [] []]; try reflexivity. now contradiction Hy.
  - destruct x as [[] [] [] [] [] [] [] []]; try reflexivity. now contradiction Hx.
Qed.

Lemma has_le_tail : forall c s, has_le (String c s) = false -> has_le s = false.
Proof. intros c s H. cbn [has_le] in H. now apply orb_false_iff in H. Qed.

Lemma sub_implication_no_le : forall s,
  has_le s = false -> Py.sub_implication s = s.
Proof.
  unfold Py.sub_implication. induction s as [| c s IH]; intros H.
  - reflexivity.
  - cbn [Py.sub_implication_from]. rewrite (match_implication_none _ H).
    f_equal. apply IH. now apply has_le_tail in H.
Qed.

(** The regular expression of [evaluate] never matches: the [=] of every [<=]
    has been rewritten to [ == ] by the line before. *)
Lemma sub_implication_never_matches : forall expr,
  Py.sub_implication (Py.replace "=" " == " expr) = Py.replace "=" " == " expr.
Proof.
  intros expr. apply sub_implication_no_le. apply replace_eq_no_le.
Qed.

(** C7, at [A IMPLIES B] and at [B -> C].  In every expression the
    substitution [re.sub] meant for implications is without effect.  The
    letters L, M, P and S of the keyword are taken for variables and [A] is
    not, so the variable list of [A IMPLIES B] is [B, L, M, P, S] and the
    table has 32 rows.  [>] is rewritten to [ <= ] and the [=] of that to
    [ == ]: [eval] is given [A < ==  False], raises [SyntaxError], and every
    result is 0.  With five
    variables no binary operator is named.  [B -> C], with the two variables
    [B] and [C], also has the results 0, 0, 0, 0 and is named
    ["Contradiction (False)"], not material implication. *)
Theorem implies_is_never_evaluated :
  forall eval : string -> Py.eval_result,
    agrees_with_python eval ->
    (forall expr, python_operators expr
                  = Py.replace "=" " == "
                      (Py.replace ">" " <= "
                         (Py.replace "~" " not "
                            (Py.replace "|" " or " (Py.replace "&" " and " expr))))) /\
    python_operators "A>0" = "A < ==  0" /\
    eval_input "A>0" = "A < ==  False" /\
    eval "A < ==  False" = Py.Error Py.SyntaxError /\
    generate_truth_table eval "A IMPLIES B"
    = Displayed {| expression := "AIMPLIESB";
                   variables := ["B"; "L"; "M"; "P"; "S"]%char;
                   parsed_expr := "A>B" |}
                (map (fun i => map Z.b2z (index_bits 5 i) ++ [0%Z])%list (seq 0 32))
                (Some {| true_count := 0; total_count := 32; false_count := 32;
                         classified := Contradiction; satisfiable := false;
                         binary_operation := None |}) /\
    generate_truth_table eval "B -> C"
    = Displayed {| expression := "B->C";
                   variables := ["B"; "C"]%char;
                   parsed_expr := "B>C" |}
                [[0; 0; 0]; [0; 1; 0]; [1; 0; 0]; [1; 1; 0]]%Z
                (Some {| true_count := 0; total_count := 4; false_count := 4;
                         classified := Contradiction; satisfiable := false;
                         binary_operation := Some "Contradiction (False)" |}).
Proof.
  intros eval Hagree.
  split; [intros expr; apply sub_implication_never_matches |].
  split; [vm_compute; reflexivity |].
  split; [vm_compute; reflexivity |].
  split; [apply Hagree; vm_compute; reflexivity |].
  split; run_in_fragment Hagree.
Qed.

Lemma implies_is_never_evaluated_witness :
  (forall expr, python_operators expr
                = Py.replace "=" " == "
                    (Py.replace ">" " <= "
                       (Py.replace "~" " not "
                          (Py.replace "|" " or " (Py.replace "&" " and " expr))))) /\
  python_operators "A>0" = "A < ==  0" /\
  eval_input "A>0" = "A < ==  False" /\
  fragment_eval "A < ==  False" = Py.Error Py.SyntaxError /\
  generate_truth_table fragment_eval "A IMPLIES B"
  = Displayed {| expression := "AIMPLIESB";
                 variables := ["B"; "L"; "M"; "P"; "S"]%char;
                 parsed_expr := "A>B" |}
              (map (fun i => map Z.b2z (index_bits 5 i) ++ [0%Z])%list (seq 0 32))
              (Some {| true_count := 0; total_count := 32; false_count := 32;
                       classified := Contradiction; satisfiable := false;
                       binary_operation := None |}) /\
  generate_truth_table fragment_eval "B -> C"
  = Displayed {| expression := "B->C";
                 variables := ["B"; "C"]%char;
                 parsed_expr := "B>C" |}
              [[0; 0; 0]; [0; 1; 0]; [1; 0; 0]; [1; 1; 0]]%Z
              (Some {| true_count := 0; total_count := 4; false_count := 4;
                       classified := Contradiction; satisfiable := false;
                       binary_operation := Some "Contradiction (False)" |}).
Proof.
  apply (implies_is_never_evaluated fragment_eval).
  intros s r H. unfold fragment_eval. rewrite H. reflexivity.
Defined.

(** ** Patterns of the binary operator table *)

Lemma operations_standard :
  length operations = 16 /\ NoDup (map snd operations) /\
  forallb (fun item => four_bits (fst item)) operations = true.
Proof.
  split; [reflexivity |]. split; [| vm_compute; reflexivity].
  apply (NoDup_count_occ string_dec). intros name.
  assert (H : forallb (fun n => count_occ string_dec (map snd operations) n <=? 1)
                (map snd operations) = true) by (vm_compute; reflexivity).
  rewrite forallb_forall in H.
  destruct (in_dec string_dec name (map snd operations)) as [Hin | Hnin].
  - apply Nat.leb_le. now apply H.
  - apply (count_occ_not_In string_dec) in Hnin. lia.
Qed.

Lemma four_bits_cases : forall pattern,
  four_bits pattern = true ->
  exists a b c d, pattern = [a; b; c; d] /\ is_bit a /\ is_bit b /\ is_bit c /\ is_bit d.
Proof.
  intros pattern H. unfold four_bits in H. apply andb_true_iff in H.
  destruct H as [Hlen Hbits]. apply Nat.eqb_eq in Hlen.
  destruct pattern as [| a [| b [| c [| d [| e l]]]]]; try discriminate Hlen.
  cbn [forallb] in Hbits.
  repeat (apply andb_true_iff in Hbits; destruct Hbits as [? Hbits]).
  exists a, b, c, d. split; [reflexivity |].
  unfold is_bitb in *. unfold is_bit.
  repeat split;
    match goal with
    | H : (?x =? 0)%Z || (?x =? 1)%Z = true |- ?x = _ \/ _ =>
        apply orb_true_iff in H; destruct H as [H | H]; apply Z.eqb_eq in H; auto
    end.
Qed.

Lemma get_outside : forall pattern,
  four_bits pattern = false ->
  get operations pattern "Custom operation" = "Custom operation".
Proof.
  intros pattern H. unfold operations, get.
  repeat match goal with
         | |- context [list_eq_dec Z.eq_dec ?k pattern] =>
             destruct (list_eq_dec Z.eq_dec k pattern) as [<- | _];
             [vm_compute in H; discriminate H |]
         end.
  reflexivity.
Qed.

(** The text [2 OR B AND C] has two variables and the result 2 in every row:
    its pattern (2, 2, 2, 2) is none of the sixteen and is reported under the
    label ["Custom operation"]. *)
Lemma custom_operation_is_reported :
  in_fragment (new_LogicalExpression "2 OR B AND C") = true /\
  generate_truth_table fragment_eval "2 OR B AND C"
  = Displayed {| expression := "2ORBANDC";
                 variables := ["B"; "C"]%char;
                 parsed_expr := "2|B&C" |}
              [[0; 0; 2]; [0; 1; 2]; [1; 0; 2]; [1; 1; 2]]%Z
              (Some {| true_count := 8; total_count := 4; false_count := -4;
                       classified := Contingency; satisfiable := true;
                       binary_operation := Some "Custom operation" |}).
Proof. split; vm_compute; reflexivity. Qed.

(** C8, as the program has it.  The table holds sixteen names, no two alike.
    [identify_binary_operation] never fails on rows that have a result: a
    pattern of four truth values is given its own entry of the table, and
    every other pattern is given the label [Custom operation]. *)
Theorem identify_binary_operation_falls_back :
  forall (rows : list (list Z)) (results : list Z),
    for_each last_item rows = Returns results ->
    length operations = 16 /\
    NoDup (map snd operations) /\
    exists name,
      identify_binary_operation rows = Returns name /\
      (four_bits results = true ->
         In (results, name) operations /\ name <> "Custom operation") /\
      (four_bits results = false -> name = "Custom operation").
Proof.
  intros rows results H.
  split; [apply operations_standard |].
  split; [apply operations_standard |].
  exists (get operations results "Custom operation").
  split; [now apply identify_binary_operation_get |].
  split.
  - intros Hfour.
    destruct (four_bits_cases _ Hfour) as [a [b [c [d [-> [Ha [Hb [Hc Hd]]]]]]]].
    destruct Ha as [-> | ->], Hb as [-> | ->], Hc as [-> | ->], Hd as [-> | ->];
      (split; [vm_compute; tauto | vm_compute; discriminate]).
  - apply get_outside.
Qed.

Lemma identify_binary_operation_falls_back_witness :
  length operations = 16 /\
  NoDup (map snd operations) /\
  exists name,
    identify_binary_operation [[0; 0; 1]; [0; 1; 1]; [1; 0; 0]; [1; 1; 1]]%Z = Returns name /\
    (four_bits [1; 1; 0; 1]%Z = true ->
       In ([1; 1; 0; 1]%Z, name) operations /\ name <> "Custom operation") /\
    (four_bits [1; 1; 0; 1]%Z = false -> name = "Custom operation").
Proof.
  apply (identify_binary_operation_falls_back
           [[0; 0; 1]; [0; 1; 1]; [1; 0; 0]; [1; 1; 1]]%Z [1; 1; 0; 1]%Z).
  reflexivity.
Defined.

(** ** What [evaluate] returns and when it raises *)

(** A variable without an entry in the assignment: the lookup is outside the
    [try] and its [KeyError] reaches the caller. *)
Lemma evaluate_missing_key : forall eval self (variable_values : Py.dict),
  (exists var, In var (variables self) /\ variable_values var = None) ->
  exists key, In key (variables self) /\ variable_values key = None /\
              evaluate eval self variable_values = Raises (KeyError key).
Proof.
  intros eval self d H.
  destruct (substitute_missing (variables self) d (parsed_expr self) H)
    as [key [H1 [H2 H3]]].
  exists key. repeat split; try assumption.
  unfold evaluate. now rewrite H3.
Qed.

Lemma covered_or_missing : forall vars (d : Py.dict),
  (forall var, In var vars -> d var <> None) \/
  (exists var, In var vars /\ d var = None).
Proof.
  induction vars as [| v vars IH]; intros d.
  - left. intros var [].
  - destruct (d v) as [b |] eqn:E.
    + destruct (IH d) as [Hall | [var [Hin Hnone]]].
      * left. intros var [<- | Hin]; [congruence | now apply Hall].
      * right. exists var. split; [now right | exact Hnone].
    + right. exists v. split; [now left | exact E].
Qed.

(** With the empty assignment [evaluate] raises [KeyError] for the expression
    [B]; for the text [2], which has no variable, it returns 2. *)
Lemma evaluate_raises_and_leaves_the_truth_values :
  evaluate fragment_eval (new_LogicalExpression "B") Py.dict_empty
  = Raises (KeyError "B") /\
  py_eval (eval_input (parsed_expr (new_LogicalExpression "2")))
  = Some (Py.Value (Py.PyInt 2)) /\
  evaluate fragment_eval (new_LogicalExpression "2") Py.dict_empty = Returns 2%Z /\
  py_eval (eval_input "1&2") = Some (Py.Value (Py.PyInt 2)) /\
  create_truth_table fragment_eval (new_LogicalExpression "B AND 2")
  = Returns [[0; 0]; [1; 2]]%Z.
Proof. repeat split; vm_compute; reflexivity. Qed.

(** C10, as the program has it.  For every expression, every interpreter
    and every assignment, [evaluate] does one of two things.  If the
    assignment lacks an entry for a variable of the expression, it raises
    [KeyError] for such a variable.  Otherwise it raises nothing and returns
    an integer: 0 when [eval] raises or when [int] raises on its value, the
    truth value as 0 or 1 when [eval] yields a boolean, and the integer itself
    when it yields an integer. *)
Theorem evaluate_returns_or_raises_key_error :
  forall (eval : string -> Py.eval_result) (self : LogicalExpression)
         (variable_values : Py.dict),
    (exists key,
       In key (variables self) /\ variable_values key = None /\
       evaluate eval self variable_values = Raises (KeyError key))
    \/
    ((forall var, In var (variables self) -> variable_values var <> None) /\
     exists expr result,
       substitute (variables self) variable_values (parsed_expr self) = Returns expr /\
       evaluate eval self variable_values = Returns result /\
       (forall e, eval (eval_input expr) = Py.Error e -> result = 0%Z) /\
       (forall b, eval (eval_input expr) = Py.Value (Py.PyBool b) ->
                  result = Z.b2z b /\ is_bit result) /\
       (forall z, eval (eval_input expr) = Py.Value (Py.PyInt z) -> result = z) /\
       (forall r, eval (eval_input expr) = Py.Value (Py.PyObject r) ->
                  result = match r with Some z => z | None => 0%Z end)).
Proof.
  intros eval self d.
  destruct (covered_or_missing (variables self) d) as [Hcov | Hmiss].
  - right. split; [exact Hcov |].
    destruct (substitute_covered (variables self) d (parsed_expr self) Hcov) as [expr He].
    exists expr, (evaluated eval expr).
    split; [exact He |].
    split; [now apply evaluate_after_substitute |].
    unfold evaluated.
    repeat split; intros; rewrite H; try reflexivity.
    destruct b; [right | left]; reflexivity.
  - left. now apply evaluate_missing_key.
Qed.

(** ** No ceiling on the number of variables *)





(** ** The connectives that work, and the examples that do not *)

Lemma table_of_sound : forall eval entry rows name,
  agrees_with_python eval ->
  shows entry rows name = true ->
  table_of (generate_truth_table eval entry) = Some (rows, Some name).
Proof.
  intros eval entry rows name Hagree H. unfold shows in H.
  apply andb_true_iff in H. destruct H as [Hfrag H].
  rewrite (generate_truth_table_in_fragment _ _ Hagree Hfrag).
  destruct (table_of (generate_truth_table fragment_eval entry)) as [[rows' [name' |]] |];
    try discriminate H.
  apply andb_true_iff in H. destruct H as [Hrows Hname].
  destruct (list_eq_dec (list_eq_dec Z.eq_dec) rows rows') as [<- | _];
    [| discriminate Hrows].
  apply String.eqb_eq in Hname. now subst.
Qed.

Lemma connectives_shown_all :
  forallb (fun X =>
             forallb (fun Y => Ascii.eqb X Y || connectives_shown X Y)
                     upper_variable_letters)
          upper_variable_letters = true.
Proof. vm_compute. reflexivity. Qed.

(** X1.  For any two different letters [X], [Y] among the sixteen upper-case
    letters that are variables, and every interpreter that agrees with Python
    on the fragment, the program displays for [X AND Y] the rows (0,0,0),
    (0,1,0), (1,0,0), (1,1,1) and the name of the conjunction, for [X OR Y]
    the rows and the name of the disjunction, and for [X IFF Y] those of the
    biconditional; the columns are in the sorted order of the two letters. *)
Theorem connectives_on_upper_case_variables :
  forall (eval : string -> Py.eval_result) (X Y : ascii),
    agrees_with_python eval ->
    In X upper_variable_letters -> In Y upper_variable_letters -> X <> Y ->
    table_of (generate_truth_table eval (binary X "AND" Y))
    = Some ([[0; 0; 0]; [0; 1; 0]; [1; 0; 0]; [1; 1; 1]]%Z, Some "Conjunction (AND)") /\
    table_of (generate_truth_table eval (binary X "OR" Y))
    = Some ([[0; 0; 0]; [0; 1; 1]; [1; 0; 1]; [1; 1; 1]]%Z, Some "Disjunction (OR)") /\
    table_of (generate_truth_table eval (binary X "IFF" Y))
    = Some ([[0; 0; 1]; [0; 1; 0]; [1; 0; 0]; [1; 1; 1]]%Z, Some "Biconditional (XNOR)").
Proof.
  intros eval X Y Hagree HX HY Hne.
  pose proof connectives_shown_all as H. rewrite forallb_forall in H.
  specialize (H X HX). rewrite forallb_forall in H. specialize (H Y HY).
  apply orb_true_iff in H. destruct H as [H | H].
  - apply Ascii.eqb_eq in H. contradiction.
  - unfold connectives_shown in H.
    apply andb_true_iff in H. destruct H as [H Hiff].
    apply andb_true_iff in H. destruct H as [Hand Hor].
    repeat split; now apply table_of_sound.
Qed.

Lemma connectives_on_upper_case_variables_witness :
  table_of (generate_truth_table fragment_eval (binary "Q" "AND" "P"))
  = Some ([[0; 0; 0]; [0; 1; 0]; [1; 0; 0]; [1; 1; 1]]%Z, Some "Conjunction (AND)") /\
  table_of (generate_truth_table fragment_eval (binary "Q" "OR" "P"))
  = Some ([[0; 0; 0]; [0; 1; 1]; [1; 0; 1]; [1; 1; 1]]%Z, Some "Disjunction (OR)") /\
  table_of (generate_truth_table fragment_eval (binary "Q" "IFF" "P"))
  = Some ([[0; 0; 1]; [0; 1; 0]; [1; 0; 0]; [1; 1; 1]]%Z, Some "Biconditional (XNOR)").
Proof.
  apply (connectives_on_upper_case_variables fragment_eval "Q" "P").
  - intros s r H. unfold fragment_eval. rewrite H. reflexivity.
  - vm_compute. tauto.
  - vm_compute. tauto.
  - discriminate.
Defined.

Lemma examples_with_A_classified :
  forallb (fun entry => classifies entry Contradiction) examples_with_A = true.
Proof. vm_compute. reflexivity. Qed.

(** X2.  Each of the program's quick examples that mentions the letter A, the
    tautology, De Morgan, implication and exclusive-or examples among them, is
    reported as a contradiction: A is dropped from the variables as an
    operator letter, so [eval] meets the unbound name [A] (or the broken
    [< ==]) and every result is 0. *)
Theorem examples_with_A_are_contradictions :
  forall (eval : string -> Py.eval_result) (entry : string),
    agrees_with_python eval ->
    In entry examples_with_A ->
    classification_of (generate_truth_table eval entry) = Some Contradiction.
Proof.
  intros eval entry Hagree Hin.
  pose proof examples_with_A_classified as H. rewrite forallb_forall in H.
  apply classifies_sound; [exact Hagree | now apply H].
Qed.

Lemma examples_with_A_are_contradictions_witness :
  classification_of
    (generate_truth_table fragment_eval "NOT (A AND B) IFF (NOT A OR NOT B)")
  = Some Contradiction.
Proof.
  apply (examples_with_A_are_contradictions fragment_eval
           "NOT (A AND B) IFF (NOT A OR NOT B)").
  - intros s r H. unfold fragment_eval. rewrite H. reflexivity.
  - vm_compute. tauto.
Defined.

(** ** Replacement in a text made of pieces *)

Lemma string_app_assoc : forall a b c : string, (a ++ b) ++ c = a ++ (b ++ c).
Proof. induction a as [| x a IH]; intros b c; cbn [append]; [reflexivity | now rewrite IH]. Qed.

Lemma string_app_nil_r : forall a : string, a ++ "" = a.
Proof. induction a as [| x a IH]; cbn [append]; [reflexivity | now rewrite IH]. Qed.

Lemma prefix_app_true : forall old s rest,
  prefix old s = true -> prefix old (s ++ rest) = true.
Proof.
  induction old as [| a old IH]; intros s rest H.
  - destruct (s ++ rest); reflexivity.
  - destruct s as [| c s]; [discriminate H |]. cbn [append prefix] in *.
    destruct (ascii_dec a c); [now apply IH | discriminate H].
Qed.

Lemma prefix_app_false : forall old s rest,
  s <> EmptyString -> prefix old s = false -> prefix s old = false ->
  prefix old (s ++ rest) = false.
Proof.
  induction old as [| a old IH]; intros s rest Hne H1 H2.
  - destruct s; discriminate H1.
  - destruct s as [| c s]; [contradiction |]. cbn [append prefix] in *.
    destruct (ascii_dec a c) as [-> | Hac].
    + destruct (ascii_dec c c) as [_ | n]; [| contradiction].
      destruct s as [| d s].
      * destruct old; discriminate H2.
      * apply IH; [discriminate | assumption | assumption].
    + reflexivity.
Qed.

Lemma replace_from_app : forall old new s skip rest,
  splits_from old skip s = true ->
  Py.replace_from old new skip (s ++ rest)
  = Py.replace_from old new skip s ++ Py.replace_from old new 0 rest.
Proof.
  intros old new. induction s as [| c s IH]; intros skip rest H.
  - cbn [splits_from] in H. apply Nat.eqb_eq in H. subst. reflexivity.
  - cbn [append Py.replace_from splits_from] in *. destruct skip as [| k].
    + change (String c (s ++ rest)) with (String c s ++ rest).
      destruct (prefix old (String c s)) eqn:E.
      * rewrite (prefix_app_true _ _ rest E).
        rewrite (IH _ rest H). now rewrite string_app_assoc.
      * apply andb_true_iff in H. destruct H as [Hp H].
        apply negb_true_iff in Hp.
        rewrite (prefix_app_false old (String c s) rest); try assumption; [| discriminate].
        cbn [append]. now rewrite (IH _ rest H).
    + now apply IH.
Qed.

Lemma replace_app : forall old new s rest,
  splits old s = true ->
  Py.replace old new (s ++ rest) = Py.replace old new s ++ Py.replace old new rest.
Proof. intros. unfold Py.replace. now apply replace_from_app. Qed.

Lemma apply_stages_app : forall stages s rest,
  stages_split stages s = true ->
  apply_stages stages (s ++ rest) = apply_stages stages s ++ apply_stages stages rest.
Proof.
  induction stages as [| [old new] stages IH]; intros s rest H.
  - reflexivity.
  - cbn [stages_split] in H. apply andb_true_iff in H. destruct H as [H1 H2].
    unfold apply_stages in *. cbn [fold_left fst snd].
    rewrite (replace_app _ _ _ _ H1). now apply IH.
Qed.

Lemma apply_stages_empty : forall stages, apply_stages stages "" = "".
Proof. induction stages as [| [o n] st IH]; [reflexivity | exact IH]. Qed.

Lemma apply_stages_join : forall stages pieces,
  forallb (stages_split stages) pieces = true ->
  apply_stages stages (join pieces) = join (map (apply_stages stages) pieces).
Proof.
  intros stages. induction pieces as [| p pieces IH]; intros H.
  - apply apply_stages_empty.
  - cbn [forallb] in H. apply andb_true_iff in H. destruct H as [H1 H2].
    cbn [join map]. rewrite (apply_stages_app _ _ _ H1). now rewrite IH.
Qed.

(** ** Strings *)

Lemma join_app : forall l1 l2, join (l1 ++ l2) = join l1 ++ join l2.
Proof.
  induction l1 as [| p l1 IH]; intros l2; cbn [join app].
  - reflexivity.
  - now rewrite IH, string_app_assoc.
Qed.

Lemma upper_app : forall s t, Py.upper (s ++ t) = Py.upper s ++ Py.upper t.
Proof. induction s as [| c s IH]; intros t; cbn; [reflexivity | now rewrite IH]. Qed.

Lemma upper_join : forall pieces, Py.upper (join pieces) = join (map Py.upper pieces).
Proof.
  induction pieces as [| p l IH]; cbn [join map]; [reflexivity |].
  now rewrite upper_app, IH.
Qed.

Lemma parse_expression_stages : forall e,
  parse_expression e = apply_stages parse_stages (Py.upper e).
Proof. reflexivity. Qed.

Lemma eval_input_stages : forall e, eval_input e = apply_stages python_stages e.
Proof.
  intros e. unfold eval_input, python_operators.
  rewrite sub_implication_never_matches. reflexivity.
Qed.

Lemma In_symbols : forall f k,
  In k (symbols f) ->
  (exists v, k = KVar v /\ In v (letters_of f)) \/ In k closed_symbols.
Proof.
  induction f as [b | v | a IHa | a IHa b IHb | a IHa b IHb | a IHa b IHb | a IHa];
    intros k Hk; cbn [symbols letters_of] in *.
  - destruct Hk as [<- | []]. right. destruct b; cbn; tauto.
  - destruct Hk as [<- | []]. left. exists v. split; [reflexivity | now left].
  - destruct Hk as [<- | Hk]; [right; cbn; tauto | now apply IHa].
  - apply in_app_or in Hk. destruct Hk as [Hk | [<- | Hk]].
    + destruct (IHa k Hk) as [[v [-> Hv]] | Hc]; [left | now right].
      exists v. split; [reflexivity | apply in_or_app; now left].
    + right; cbn; tauto.
    + destruct (IHb k Hk) as [[v [-> Hv]] | Hc]; [left | now right].
      exists v. split; [reflexivity | apply in_or_app; now right].
  - apply in_app_or in Hk. destruct Hk as [Hk | [<- | Hk]].
    + destruct (IHa k Hk) as [[v [-> Hv]] | Hc]; [left | now right].
      exists v. split; [reflexivity | apply in_or_app; now left].
    + right; cbn; tauto.
    + destruct (IHb k Hk) as [[v [-> Hv]] | Hc]; [left | now right].
      exists v. split; [reflexivity | apply in_or_app; now right].
  - apply in_app_or in Hk. destruct Hk as [Hk | [<- | Hk]].
    + destruct (IHa k Hk) as [[v [-> Hv]] | Hc]; [left | now right].
      exists v. split; [reflexivity | apply in_or_app; now left].
    + right; cbn; tauto.
    + destruct (IHb k Hk) as [[v [-> Hv]] | Hc]; [left | now right].
      exists v. split; [reflexivity | apply in_or_app; now right].
  - destruct Hk as [<- | Hk]; [right; cbn; tauto |].
    apply in_app_or in Hk. destruct Hk as [Hk | [<- | []]].
    + now apply IHa.
    + right; cbn; tauto.
Qed.

Lemma In_written_symbols : forall f k,
  well_named f = true -> In k (symbols f) -> In k written_symbols.
Proof.
  intros f k Hf Hk. unfold written_symbols. apply in_or_app.
  destruct (In_symbols f k Hk) as [[v [-> Hv]] | Hc]; [right | now left].
  apply in_map. unfold well_named in Hf. rewrite forallb_forall in Hf.
  apply mem_In. now apply Hf.
Qed.

Lemma passes_parse :
  forallb (fun k => String.eqb (Py.upper (typed k)) (typed k)
                    && passes parse_stages typed rewritten k) written_symbols = true.
Proof. vm_compute. reflexivity. Qed.

Lemma passes_python :
  forallb (passes python_stages rewritten in_python) closed_symbols = true.
Proof. vm_compute. reflexivity. Qed.

(** [parse_expression] rewrites the text of a formula symbol by symbol. *)
Lemma parse_expression_render : forall f,
  well_named f = true ->
  parse_expression (render typed f) = render rewritten f.
Proof.
  intros f Hf. unfold render. rewrite parse_expression_stages, upper_join, map_map.
  pose proof passes_parse as Hp. rewrite forallb_forall in Hp.
  assert (Hk : forall k, In k (symbols f) ->
             Py.upper (typed k) = typed k /\
             stages_split parse_stages (typed k) = true /\
             apply_stages parse_stages (typed k) = rewritten k).
  { intros k Hin. specialize (Hp k (In_written_symbols f k Hf Hin)).
    unfold passes in Hp. apply andb_true_iff in Hp. destruct Hp as [H1 H2].
    apply andb_true_iff in H2. destruct H2 as [H2 H3].
    apply String.eqb_eq in H1, H3. auto. }
  rewrite (map_ext_in _ typed); [| intros k Hin; now apply Hk].
  rewrite apply_stages_join.
  - rewrite map_map. f_equal. apply map_ext_in. intros k Hin. now apply Hk.
  - apply forallb_forall. intros s Hs. apply in_map_iff in Hs.
    destruct Hs as [k [<- Hin]]. now apply Hk.
Qed.

(** The operator rewriting of [evaluate] on a text without variables. *)
Lemma eval_input_render : forall rho f,
  eval_input (join (map rewritten (map (assign rho) (symbols f))))
  = join (map in_python (map (assign rho) (symbols f))).
Proof.
  intros rho f. rewrite eval_input_stages.
  pose proof passes_python as Hp. rewrite forallb_forall in Hp.
  assert (Hk : forall k, In k (map (assign rho) (symbols f)) ->
             stages_split python_stages (rewritten k) = true /\
             apply_stages python_stages (rewritten k) = in_python k).
  { intros k Hin. apply in_map_iff in Hin. destruct Hin as [k0 [<- _]].
    assert (Hc : In (assign rho k0) closed_symbols).
    { destruct k0; cbn; try tauto. destruct (rho v); tauto. destruct b; tauto. }
    specialize (Hp _ Hc). unfold passes in Hp.
    apply andb_true_iff in Hp. destruct Hp as [H1 H2].
    apply String.eqb_eq in H2. auto. }
  rewrite apply_stages_join.
  - rewrite map_map. rewrite map_map. rewrite map_map.
    f_equal. apply map_ext_in. intros k Hin.
    apply (Hk (assign rho k)). now apply in_map.
  - apply forallb_forall. intros s Hs. apply in_map_iff in Hs.
    destruct Hs as [k [<- Hin]]. now apply Hk.
Qed.

(** ** The substitution loop of [evaluate] on the text of a formula *)

Lemma splits_single : forall w s, splits (String w "") s = true.
Proof.
  intros w. unfold splits. induction s as [| c s IH]; [reflexivity |].
  cbn [splits_from prefix String.length Nat.sub].
  destruct (ascii_dec w c) as [<- | Hne].
  - destruct s; exact IH.
  - cbn [negb andb]. destruct (ascii_dec c w) as [-> | _]; [contradiction |]. exact IH.
Qed.

Lemma replace_join : forall old new pieces,
  forallb (splits old) pieces = true ->
  Py.replace old new (join pieces) = join (map (Py.replace old new) pieces).
Proof.
  intros old new. induction pieces as [| p l IH]; intros H.
  - reflexivity.
  - cbn [forallb] in H. apply andb_true_iff in H. destruct H as [H1 H2].
    cbn [join map]. rewrite (replace_app _ _ _ _ H1). now rewrite IH.
Qed.

Lemma replace_single_step : forall w new c s,
  Py.replace (String w "") new (String c s)
  = if Ascii.eqb c w then new ++ Py.replace (String w "") new s
    else String c (Py.replace (String w "") new s).
Proof.
  intros w new c s. unfold Py.replace. cbn [Py.replace_from prefix String.length Nat.sub].
  destruct (ascii_dec w c) as [<- | Hne].
  - rewrite Ascii.eqb_refl. destruct s; reflexivity.
  - destruct (Ascii.eqb_spec c w) as [-> | _]; [contradiction | reflexivity].
Qed.

Lemma replace_letter_rewritten : forall w b k,
  Py.is_letter w = true ->
  Py.replace (String w "") (Py.str_int_of_bool b) (rewritten k)
  = rewritten (assign_one w b k).
Proof.
  intros w b k Hw.
  destruct k as [| | | | | | v | c]; cbn [rewritten assign_one];
    try (rewrite replace_single_step;
         match goal with
         | |- context [Ascii.eqb ?c w] =>
             destruct (Ascii.eqb_spec c w) as [<- | _]; [discriminate Hw | reflexivity]
         end).
  - rewrite replace_single_step. destruct (Ascii.eqb v w).
    + cbn. apply string_app_nil_r.
    + reflexivity.
  - destruct c; cbn [Py.str_int_of_bool]; rewrite replace_single_step;
      match goal with
      | |- context [Ascii.eqb ?c w] =>
          destruct (Ascii.eqb_spec c w) as [<- | _]; [discriminate Hw | reflexivity]
      end.
Qed.

Lemma substitute_step : forall v vars (d : Py.dict) b expr,
  d v = Some b ->
  substitute (v :: vars) d expr
  = substitute vars d (Py.replace (String v "") (Py.str_int_of_bool b) expr).
Proof. intros v vars d b expr H. unfold substitute. cbn [fold_left bind]. now rewrite H. Qed.

Lemma substitute_symbols : forall vars (d : Py.dict) ks,
  (forall v, In v vars -> Py.is_letter v = true /\ d v <> None) ->
  substitute vars d (join (map rewritten ks))
  = Returns (join (map rewritten
               (fold_left (fun ks v => map (assign_one v (valuation d v)) ks) vars ks))).
Proof.
  induction vars as [| v vars IH]; intros d ks H.
  - reflexivity.
  - destruct (H v (or_introl eq_refl)) as [Hl Hd].
    destruct (d v) as [b |] eqn:E; [| contradiction].
    rewrite (substitute_step _ _ _ _ _ E).
    rewrite replace_join.
    + rewrite map_map.
      rewrite (map_ext _ (fun k => rewritten (assign_one v b k)));
        [| intros k; now apply replace_letter_rewritten].
      rewrite <- (map_map (assign_one v b) rewritten).
      rewrite IH; [| intros u Hu; apply H; now right].
      assert (Hb : valuation d v = b) by (unfold valuation; now rewrite E).
      cbn [fold_left]. now rewrite Hb.
    + apply forallb_forall. intros s _. apply splits_single.
Qed.

Lemma fold_assign_map : forall (rho : ascii -> bool) vars ks,
  fold_left (fun ks v => map (assign_one v (rho v)) ks) vars ks
  = map (fun k => fold_left (fun k v => assign_one v (rho v) k) vars k) ks.
Proof.
  intros rho. induction vars as [| v vars IH]; intros ks; cbn [fold_left].
  - now rewrite map_id.
  - now rewrite IH, map_map.
Qed.

Lemma fold_assign_closed : forall (rho : ascii -> bool) vars k,
  (forall v, k <> KVar v) ->
  fold_left (fun k v => assign_one v (rho v) k) vars k = k.
Proof.
  intros rho. induction vars as [| w vars IH]; intros k Hk; cbn [fold_left].
  - reflexivity.
  - destruct k; try (cbn [assign_one]; now apply IH). exfalso. now apply (Hk v).
Qed.

Lemma fold_assign_var : forall (rho : ascii -> bool) vars v,
  In v vars ->
  fold_left (fun k w => assign_one w (rho w) k) vars (KVar v) = KConst (rho v).
Proof.
  intros rho. induction vars as [| w vars IH]; intros v Hin; [destruct Hin |].
  cbn [fold_left assign_one]. destruct (Ascii.eqb_spec v w) as [-> | Hne].
  - apply fold_assign_closed. discriminate.
  - apply IH. destruct Hin as [-> | Hin]; [contradiction | exact Hin].
Qed.

(** After the loop every variable of the formula stands as its truth value. *)
Lemma substitute_render : forall vars (d : Py.dict) f,
  (forall v, In v vars -> Py.is_letter v = true /\ d v <> None) ->
  (forall v, In v (letters_of f) -> In v vars) ->
  substitute vars d (render rewritten f)
  = Returns (join (map rewritten (map (assign (valuation d)) (symbols f)))).
Proof.
  intros vars d f Hv Hf. unfold render.
  rewrite (substitute_symbols _ _ _ Hv), fold_assign_map.
  do 3 f_equal. apply map_ext_in. intros k Hk.
  destruct (In_symbols f k Hk) as [[v [-> Hin]] | Hc].
  - cbn [assign]. apply fold_assign_var. now apply Hf.
  - assert (Hnv : forall v, k <> KVar v).
    { intros v ->. cbn in Hc. intuition discriminate. }
    rewrite (fold_assign_closed _ _ _ Hnv). destruct k; try reflexivity.
    exfalso. now apply (Hnv v).
Qed.

(** ** The formula as Python reads it *)

Lemma python_text_join : forall rho f,
  join (map in_python (map (assign rho) (symbols f))) = python_text rho f.
Proof.
  intros rho. induction f as [b | v | a IHa | a IHa b IHb | a IHa b IHb | a IHa b IHb | a IHa];
    cbn [symbols map join python_text assign in_python];
    rewrite ?map_app, ?map_app, ?join_app; cbn [map join assign in_python];
    rewrite ?IHa, ?IHb, ?string_app_nil_r; reflexivity.
Qed.

(** *** Tokens *)

Lemma close_word_none : forall w, PyExpr.close_word w None = None.
Proof.
  intros w. unfold PyExpr.close_word. destruct w; [reflexivity |].
  destruct (PyExpr.word_token _); reflexivity.
Qed.

Lemma lex_nonword : forall w c s,
  PyExpr.is_word_char c = false ->
  PyExpr.lex_from w (String c s)
  = PyExpr.close_word w (PyExpr.lex_from "" (String c s)).
Proof.
  intros w c s H. cbn [PyExpr.lex_from]. rewrite H.
  repeat match goal with
         | |- context [if Ascii.eqb c ?x then _ else _] => destruct (Ascii.eqb c x)
         end;
    cbn [PyExpr.close_word]; try reflexivity;
    try (symmetry; apply close_word_none);
    destruct s as [| [[] [] [] [] [] [] [] []] s]; cbn [PyExpr.close_word];
    try reflexivity; symmetry; apply close_word_none.
Qed.

Lemma lex_word : forall w t rest,
  PyExpr.word_token w = Some t -> w <> EmptyString ->
  nonword_head rest = true ->
  PyExpr.lex_from w rest = option_map (cons t) (PyExpr.lex_from "" rest).
Proof.
  intros w t rest Ht Hw Hrest. destruct rest as [| c s].
  - cbn. destruct w; [contradiction |]. unfold PyExpr.close_word. now rewrite Ht.
  - cbn [nonword_head] in Hrest. apply negb_true_iff in Hrest.
    rewrite (lex_nonword _ _ _ Hrest).
    unfold PyExpr.close_word at 1. destruct w; [contradiction |]. rewrite Ht.
    destruct (PyExpr.lex_from "" (String c s)); reflexivity.
Qed.

Lemma lex_truth_value : forall (b : bool) rest,
  nonword_head rest = true ->
  PyExpr.lex_from "" ((if b then "True" else "False") ++ rest)
  = option_map (cons (if b then PyExpr.TTrue else PyExpr.TFalse))
               (PyExpr.lex_from "" rest).
Proof.
  intros b rest H. destruct b.
  - change (PyExpr.lex_from "" ("True" ++ rest)) with (PyExpr.lex_from "True" rest).
    apply lex_word; [reflexivity | discriminate | exact H].
  - change (PyExpr.lex_from "" ("False" ++ rest)) with (PyExpr.lex_from "False" rest).
    apply lex_word; [reflexivity | discriminate | exact H].
Qed.

Lemma lex_keyword : forall rest,
  PyExpr.lex_from "" (" and " ++ rest) = option_map (cons PyExpr.TAnd) (PyExpr.lex_from "" rest) /\
  PyExpr.lex_from "" (" or " ++ rest) = option_map (cons PyExpr.TOr) (PyExpr.lex_from "" rest) /\
  PyExpr.lex_from "" (" not " ++ rest) = option_map (cons PyExpr.TNot) (PyExpr.lex_from "" rest) /\
  PyExpr.lex_from "" (" == " ++ rest) = option_map (cons PyExpr.TEqEq) (PyExpr.lex_from "" rest) /\
  PyExpr.lex_from "" ("(" ++ rest) = option_map (cons PyExpr.TLParen) (PyExpr.lex_from "" rest) /\
  PyExpr.lex_from "" (")" ++ rest) = option_map (cons PyExpr.TRParen) (PyExpr.lex_from "" rest).
Proof.
  intros rest. repeat split.
Qed.

Lemma option_map_app : forall (A : Type) (l1 l2 : list A) (o : option (list A)),
  option_map (app l1) (option_map (app l2) o) = option_map (app (l1 ++ l2)) o.
Proof. intros A l1 l2 [l |]; cbn; [now rewrite app_assoc | reflexivity]. Qed.

(** The tokens of the text of a formula, whatever follows it. *)
Lemma lex_formula : forall rho f rest,
  nonword_head rest = true ->
  PyExpr.lex_from "" (python_text rho f ++ rest)
  = option_map (app (python_tokens rho f)) (PyExpr.lex_from "" rest).
Proof.
  intros rho.
  induction f as [b | v | a IHa | a IHa b IHb | a IHa b IHb | a IHa b IHb | a IHa];
    intros rest Hrest; cbn [python_text python_tokens].
  - rewrite (lex_truth_value b rest Hrest).
    destruct (PyExpr.lex_from "" rest); reflexivity.
  - rewrite (lex_truth_value (rho v) rest Hrest).
    destruct (PyExpr.lex_from "" rest); reflexivity.
  - rewrite string_app_assoc.
    destruct (lex_keyword (python_text rho a ++ rest)) as [_ [_ [-> _]]].
    rewrite (IHa rest Hrest). destruct (PyExpr.lex_from "" rest); reflexivity.
  - rewrite !string_app_assoc. rewrite IHa; [| reflexivity].
    destruct (lex_keyword (python_text rho b ++ rest)) as [-> _].
    rewrite (IHb rest Hrest).
    destruct (PyExpr.lex_from "" rest); cbn; [| reflexivity].
    now rewrite <- app_assoc.
  - rewrite !string_app_assoc. rewrite IHa; [| reflexivity].
    destruct (lex_keyword (python_text rho b ++ rest)) as [_ [-> _]].
    rewrite (IHb rest Hrest).
    destruct (PyExpr.lex_from "" rest); cbn; [| reflexivity].
    now rewrite <- app_assoc.
  - rewrite !string_app_assoc. rewrite IHa; [| reflexivity].
    destruct (lex_keyword (python_text rho b ++ rest)) as [_ [_ [_ [-> _]]]].
    rewrite (IHb rest Hrest).
    destruct (PyExpr.lex_from "" rest); cbn; [| reflexivity].
    now rewrite <- app_assoc.
  - rewrite !string_app_assoc.
    destruct (lex_keyword (python_text rho a ++ ")" ++ rest)) as [_ [_ [_ [_ [-> _]]]]].
    rewrite IHa; [| reflexivity].
    destruct (lex_keyword rest) as [_ [_ [_ [_ [_ ->]]]]].
    destruct (PyExpr.lex_from "" rest); cbn; [| reflexivity].
    now rewrite <- app_assoc.
Qed.

Lemma lex_python_text : forall rho f,
  PyExpr.lex (python_text rho f) = Some (python_tokens rho f).
Proof.
  intros rho f. unfold PyExpr.lex.
  rewrite <- (string_app_nil_r (python_text rho f)).
  rewrite lex_formula; [| reflexivity]. cbn. now rewrite app_nil_r.
Qed.

(** *** Grammar *)

Lemma ends_operand_primary : forall ts, ends_operand ts = true -> ends_primary ts = true.
Proof. intros [| [] ts] H; try reflexivity; discriminate H. Qed.

Lemma ends_conjunction_operand : forall ts,
  ends_conjunction ts = true -> ends_operand ts = true.
Proof. intros [| [] ts] H; try reflexivity; try discriminate H. Qed.

Lemma ends_disjunction_conjunction : forall ts,
  ends_disjunction ts = true -> ends_conjunction ts = true.
Proof. intros [| [] ts] H; try reflexivity; try discriminate H. Qed.

Lemma p_atom_truth_value : forall F (b : bool) rest,
  ends_primary rest = true ->
  PyExpr.p_atom (S F) ((if b then PyExpr.TTrue else PyExpr.TFalse) :: rest)
  = PyExpr.Parsed (PyExpr.Constant (PyExpr.SBool b)) rest.
Proof.
  intros F b rest H. destruct b; cbn [PyExpr.p_atom PyExpr.after_primary];
    destruct rest as [| [] rest]; try reflexivity; discriminate H.
Qed.

Lemma p_atom_paren : forall F t ts e rest,
  t <> PyExpr.TRParen ->
  PyExpr.p_or F (t :: ts) = PyExpr.Parsed e (PyExpr.TRParen :: rest) ->
  ends_primary rest = true ->
  PyExpr.p_atom (S F) (PyExpr.TLParen :: t :: ts) = PyExpr.Parsed e rest.
Proof.
  intros F t ts e rest Ht Hp Hrest. cbn [PyExpr.p_atom].
  destruct t; try contradiction; rewrite Hp; cbn [PyExpr.after_primary];
    destruct rest as [| [] rest]; try reflexivity; discriminate Hrest.
Qed.

Lemma p_comparison_plain : forall F ts e rest,
  PyExpr.p_atom F ts = PyExpr.Parsed e rest ->
  ends_operand rest = true ->
  PyExpr.p_comparison (S F) ts = PyExpr.Parsed e rest.
Proof.
  intros F ts e rest Hp Hrest. cbn [PyExpr.p_comparison]. rewrite Hp.
  destruct rest as [| [] rest]; try reflexivity; discriminate Hrest.
Qed.

Lemma p_comparison_iff : forall F ts e1 ts2 e2 rest,
  PyExpr.p_atom (S F) ts = PyExpr.Parsed e1 (PyExpr.TEqEq :: ts2) ->
  PyExpr.p_atom F ts2 = PyExpr.Parsed e2 rest ->
  ends_operand rest = true ->
  PyExpr.p_comparison (S (S F)) ts
  = PyExpr.Parsed (PyExpr.Compare e1 (PyExpr.ChainLast PyExpr.Eq e2)) rest.
Proof.
  intros F ts e1 ts2 e2 rest H1 H2 Hrest.
  cbn [PyExpr.p_comparison]. rewrite H1. cbn [PyExpr.cmpop_of PyExpr.p_chain].
  rewrite H2. destruct rest as [| [] rest]; try reflexivity; discriminate Hrest.
Qed.

Lemma p_not_not : forall F ts e rest,
  PyExpr.p_not F ts = PyExpr.Parsed e rest ->
  PyExpr.p_not (S F) (PyExpr.TNot :: ts) = PyExpr.Parsed (PyExpr.Not e) rest.
Proof. intros F ts e rest H. cbn [PyExpr.p_not]. now rewrite H. Qed.

Lemma p_not_plain : forall F t ts,
  t <> PyExpr.TNot ->
  PyExpr.p_not (S F) (t :: ts) = PyExpr.p_comparison F (t :: ts).
Proof. intros F t ts H. cbn [PyExpr.p_not]. destruct t; try reflexivity. contradiction. Qed.

Lemma p_and_first : forall F ts e rest,
  PyExpr.p_not F ts = PyExpr.Parsed e rest ->
  PyExpr.p_and (S F) ts = PyExpr.p_and_tail F e rest.
Proof. intros F ts e rest H. cbn [PyExpr.p_and]. now rewrite H. Qed.

Lemma p_and_next : forall F e ts e2 rest,
  PyExpr.p_not F ts = PyExpr.Parsed e2 rest ->
  PyExpr.p_and_tail (S F) e (PyExpr.TAnd :: ts)
  = PyExpr.p_and_tail F (PyExpr.And e e2) rest.
Proof. intros F e ts e2 rest H. cbn [PyExpr.p_and_tail]. now rewrite H. Qed.

Lemma p_and_end : forall F e rest,
  ends_conjunction rest = true ->
  PyExpr.p_and_tail (S F) e rest = PyExpr.Parsed e rest.
Proof.
  intros F e rest H. cbn [PyExpr.p_and_tail].
  destruct rest as [| [] rest]; try reflexivity; discriminate H.
Qed.

Lemma p_or_first : forall F ts e rest,
  PyExpr.p_and F ts = PyExpr.Parsed e rest ->
  PyExpr.p_or (S F) ts = PyExpr.p_or_tail F e rest.
Proof. intros F ts e rest H. cbn [PyExpr.p_or]. now rewrite H. Qed.

Lemma p_or_next : forall F e ts e2 rest,
  PyExpr.p_and F ts = PyExpr.Parsed e2 rest ->
  PyExpr.p_or_tail (S F) e (PyExpr.TOr :: ts)
  = PyExpr.p_or_tail F (PyExpr.Or e e2) rest.
Proof. intros F e ts e2 rest H. cbn [PyExpr.p_or_tail]. now rewrite H. Qed.

Lemma p_or_end : forall F e rest,
  ends_disjunction rest = true ->
  PyExpr.p_or_tail (S F) e rest = PyExpr.Parsed e rest.
Proof.
  intros F e rest H. cbn [PyExpr.p_or_tail].
  destruct rest as [| [] rest]; try reflexivity; discriminate H.
Qed.

Lemma and_chain_size : forall f, and_chain f <= size f.
Proof. induction f; cbn [and_chain size]; lia. Qed.

Lemma or_chain_size : forall f, or_chain f <= size f.
Proof. induction f; cbn [or_chain size]; lia. Qed.

Lemma size_pos : forall f, 1 <= size f.
Proof. destruct f; cbn [size]; lia. Qed.

(** The first token of a formula. *)
Lemma python_tokens_head : forall rho f,
  exists t ts,
    python_tokens rho f = t :: ts /\
    t <> PyExpr.TRParen /\
    (3 <= level f -> grammatical f = true -> t <> PyExpr.TNot).
Proof.
  intros rho.
  induction f as [b | v | a IHa | a IHa b IHb | a IHa b IHb | a IHa b IHb | a IHa];
    cbn [python_tokens level grammatical].
  - eexists _, _. split; [reflexivity |]. destruct b; split; intros; discriminate.
  - eexists _, _. split; [reflexivity |]. destruct (rho v); split; intros; discriminate.
  - eexists _, _. split; [reflexivity |]. split; [discriminate | lia].
  - destruct IHa as [t [ts [-> [H1 _]]]]. eexists _, _. split; [reflexivity |].
    split; [exact H1 | lia].
  - destruct IHa as [t [ts [-> [H1 _]]]]. eexists _, _. split; [reflexivity |].
    split; [exact H1 | lia].
  - destruct IHa as [t [ts [-> [H1 H2]]]]. eexists _, _. split; [reflexivity |].
    split; [exact H1 |]. intros _ Hg.
    apply andb_true_iff in Hg. destruct Hg as [Hg _].
    apply andb_true_iff in Hg. destruct Hg as [Hg Hga].
    apply andb_true_iff in Hg. destruct Hg as [Hla _].
    apply Nat.leb_le in Hla. apply H2; [lia | exact Hga].
  - eexists _, _. split; [reflexivity |]. split; intros; discriminate.
Qed.

Lemma and_ok_closed : forall rho f, and_ok rho f ->
  forall F rest, 5 * size f <= F + 1 -> ends_conjunction rest = true ->
    PyExpr.p_and F (python_tokens rho f ++ rest) = PyExpr.Parsed (python_tree rho f) rest.
Proof.
  intros rho f H F rest HF Hrest.
  pose proof (and_chain_size f) as Hc. pose proof (size_pos f) as Hs.
  assert (HFk : F = S (F - and_chain f - 1) + and_chain f) by lia.
  rewrite HFk. rewrite H; [| lia | now apply ends_conjunction_operand].
  now apply p_and_end.
Qed.

Lemma or_ok_closed : forall rho f, or_ok rho f ->
  forall F rest, 5 * size f <= F -> ends_disjunction rest = true ->
    PyExpr.p_or F (python_tokens rho f ++ rest) = PyExpr.Parsed (python_tree rho f) rest.
Proof.
  intros rho f H F rest HF Hrest.
  pose proof (or_chain_size f) as Hc. pose proof (size_pos f) as Hs.
  assert (HFk : F = S (F - or_chain f - 1) + or_chain f) by lia.
  rewrite HFk. rewrite H; [| lia | now apply ends_disjunction_conjunction].
  now apply p_or_end.
Qed.

Lemma atom_comparison : forall rho f, atom_ok rho f -> comparison_ok rho f.
Proof.
  intros rho f H F rest HF Hrest. pose proof (size_pos f) as Hs.
  destruct F as [| F]; [lia |].
  apply p_comparison_plain; [| exact Hrest].
  apply H; [lia | now apply ends_operand_primary].
Qed.

Lemma comparison_not : forall rho f,
  3 <= level f -> grammatical f = true -> comparison_ok rho f -> not_ok rho f.
Proof.
  intros rho f Hl Hg H F rest HF Hrest. pose proof (size_pos f) as Hs.
  destruct F as [| F]; [lia |].
  destruct (python_tokens_head rho f) as [t [ts [Ht [_ Hnot]]]].
  specialize (H F rest). rewrite Ht in *. cbn [app] in *.
  rewrite p_not_plain by (now apply Hnot).
  apply H; [lia | exact Hrest].
Qed.

Lemma not_and : forall rho f, 2 <= level f -> not_ok rho f -> and_ok rho f.
Proof.
  intros rho f Hl H k rest Hk Hrest.
  assert (Hc : and_chain f = 1) by (destruct f; try reflexivity; cbn [level] in Hl; lia).
  rewrite Hc in *. replace (k + 1) with (S k) by lia.
  apply p_and_first. apply H; [lia | exact Hrest].
Qed.

Lemma and_or : forall rho f, 1 <= level f -> and_ok rho f -> or_ok rho f.
Proof.
  intros rho f Hl H k rest Hk Hrest.
  assert (Hc : or_chain f = 1) by (destruct f; try reflexivity; cbn [level] in Hl; lia).
  rewrite Hc in *. replace (k + 1) with (S k) by lia.
  apply p_or_first. apply and_ok_closed; [exact H | lia | exact Hrest].
Qed.

Lemma atom_ok_const : forall rho b, atom_ok rho (FConst b).
Proof.
  intros rho b F rest HF Hrest. cbn [size] in HF. destruct F as [| F]; [lia |].
  cbn [python_tokens python_tree app]. now apply p_atom_truth_value.
Qed.

Lemma atom_ok_var : forall rho v, atom_ok rho (FVar v).
Proof.
  intros rho v F rest HF Hrest. cbn [size] in HF. destruct F as [| F]; [lia |].
  cbn [python_tokens python_tree app]. now apply p_atom_truth_value.
Qed.

Lemma atom_ok_paren : forall rho a, or_ok rho a -> atom_ok rho (FParen a).
Proof.
  intros rho a H F rest HF Hrest. cbn [size] in HF. destruct F as [| F]; [lia |].
  cbn [python_tokens python_tree app]. rewrite <- app_assoc. cbn [app].
  pose proof (or_ok_closed rho a H F (PyExpr.TRParen :: rest)) as Hp.
  destruct (python_tokens_head rho a) as [t [ts [Ht [Hclose _]]]].
  rewrite Ht in *. cbn [app] in *.
  apply p_atom_paren; [exact Hclose | | exact Hrest].
  apply Hp; [lia | reflexivity].
Qed.

Lemma comparison_ok_iff : forall rho a b,
  atom_ok rho a -> atom_ok rho b -> comparison_ok rho (FIff a b).
Proof.
  intros rho a b Ha Hb F rest HF Hrest. cbn [size] in HF.
  pose proof (size_pos a). pose proof (size_pos b).
  destruct F as [| [| F]]; [lia | lia |].
  cbn [python_tokens python_tree]. rewrite <- app_assoc. cbn [app].
  eapply p_comparison_iff; [| | exact Hrest].
  - apply Ha; [lia | reflexivity].
  - apply Hb; [lia | now apply ends_operand_primary].
Qed.

Lemma not_ok_not : forall rho a, not_ok rho a -> not_ok rho (FNot a).
Proof.
  intros rho a Ha F rest HF Hrest. cbn [size] in HF. destruct F as [| F]; [lia |].
  cbn [python_tokens python_tree app]. apply p_not_not. apply Ha; [lia | exact Hrest].
Qed.

Lemma and_ok_and : forall rho a b, and_ok rho a -> not_ok rho b -> and_ok rho (FAnd a b).
Proof.
  intros rho a b Ha Hb k rest Hk Hrest. cbn [size and_chain] in *.
  pose proof (and_chain_size a). pose proof (size_pos a). pose proof (size_pos b).
  cbn [python_tokens python_tree]. rewrite <- app_assoc. cbn [app].
  replace (k + S (and_chain a)) with (S k + and_chain a) by lia.
  rewrite Ha; [| lia | reflexivity].
  apply p_and_next. apply Hb; [lia | exact Hrest].
Qed.

Lemma or_ok_or : forall rho a b, or_ok rho a -> and_ok rho b -> or_ok rho (FOr a b).
Proof.
  intros rho a b Ha Hb k rest Hk Hrest. cbn [size or_chain] in *.
  pose proof (or_chain_size a). pose proof (size_pos a). pose proof (size_pos b).
  cbn [python_tokens python_tree]. rewrite <- app_assoc. cbn [app].
  replace (k + S (or_chain a)) with (S k + or_chain a) by lia.
  rewrite Ha; [| lia | reflexivity].
  apply p_or_next. apply and_ok_closed; [exact Hb | lia | exact Hrest].
Qed.

Lemma level_top : forall f, 4 <= level f -> level f = 4.
Proof. intros f H. destruct f; cbn [level] in *; lia. Qed.

Lemma parse_formula : forall rho f, grammatical f = true ->
  (level f = 4 -> atom_ok rho f) /\
  (3 <= level f -> comparison_ok rho f) /\
  (2 <= level f -> not_ok rho f) /\
  (1 <= level f -> and_ok rho f) /\
  or_ok rho f.
Proof.
  intros rho.
  induction f as [b | v | a IHa | a IHa b IHb | a IHa b IHb | a IHa b IHb | a IHa];
    cbn [grammatical level]; intros Hg;
    repeat match goal with
           | H : (_ && _)%bool = true |- _ => apply andb_true_iff in H; destruct H
           | H : (_ <=? _) = true |- _ => apply Nat.leb_le in H
           end.
  - pose proof (atom_ok_const rho b) as Katom.
    pose proof (atom_comparison _ _ Katom) as Kcmp.
    pose proof (comparison_not rho (FConst b) ltac:(cbn; lia) eq_refl Kcmp) as Knot.
    pose proof (not_and rho (FConst b) ltac:(cbn; lia) Knot) as Kand.
    pose proof (and_or rho (FConst b) ltac:(cbn; lia) Kand) as Kor.
    repeat split; intros; assumption.
  - pose proof (atom_ok_var rho v) as Katom.
    pose proof (atom_comparison _ _ Katom) as Kcmp.
    pose proof (comparison_not rho (FVar v) ltac:(cbn; lia) eq_refl Kcmp) as Knot.
    pose proof (not_and rho (FVar v) ltac:(cbn; lia) Knot) as Kand.
    pose proof (and_or rho (FVar v) ltac:(cbn; lia) Kand) as Kor.
    repeat split; intros; assumption.
  - destruct (IHa ltac:(assumption)) as [_ [_ [Hn _]]].
    pose proof (not_ok_not rho a (Hn ltac:(assumption))) as Knot.
    pose proof (not_and rho (FNot a) ltac:(cbn; lia) Knot) as Kand.
    pose proof (and_or rho (FNot a) ltac:(cbn; lia) Kand) as Kor.
    repeat split; intros; try assumption; lia.
  - destruct (IHa ltac:(assumption)) as [_ [_ [_ [Hand _]]]].
    destruct (IHb ltac:(assumption)) as [_ [_ [Hn _]]].
    pose proof (and_ok_and rho a b (Hand ltac:(assumption)) (Hn ltac:(assumption))) as Kand.
    pose proof (and_or rho (FAnd a b) ltac:(cbn; lia) Kand) as Kor.
    repeat split; intros; try assumption; lia.
  - destruct (IHa ltac:(assumption)) as [_ [_ [_ [_ Hor]]]].
    destruct (IHb ltac:(assumption)) as [_ [_ [_ [Hand _]]]].
    pose proof (or_ok_or rho a b Hor (Hand ltac:(assumption))) as Kor.
    repeat split; intros; try assumption; lia.
  - destruct (IHa ltac:(assumption)) as [Ha _].
    destruct (IHb ltac:(assumption)) as [Hb _].
    assert (Hg' : grammatical (FIff a b) = true).
    { cbn [grammatical]. repeat (apply andb_true_iff; split); try assumption;
        now apply Nat.leb_le. }
    pose proof (comparison_ok_iff rho a b (Ha (level_top a ltac:(assumption)))
                  (Hb (level_top b ltac:(assumption)))) as Kcmp.
    pose proof (comparison_not rho (FIff a b) ltac:(cbn; lia) Hg' Kcmp) as Knot.
    pose proof (not_and rho (FIff a b) ltac:(cbn; lia) Knot) as Kand.
    pose proof (and_or rho (FIff a b) ltac:(cbn; lia) Kand) as Kor.
    repeat split; intros; try assumption; lia.
  - destruct (IHa ltac:(assumption)) as [_ [_ [_ [_ Hor]]]].
    pose proof (atom_ok_paren rho a Hor) as Katom.
    pose proof (atom_comparison _ _ Katom) as Kcmp.
    pose proof (comparison_not rho (FParen a) ltac:(cbn; lia) Hg Kcmp) as Knot.
    pose proof (not_and rho (FParen a) ltac:(cbn; lia) Knot) as Kand.
    pose proof (and_or rho (FParen a) ltac:(cbn; lia) Kand) as Kor.
    repeat split; intros; assumption.
Qed.

(** *** Values *)

Lemma interp_python_tree : forall rho f,
  PyExpr.interp (python_tree rho f) = Some (PyExpr.SBool (sem rho f)).
Proof.
  intros rho.
  induction f as [b | v | a IHa | a IHa b IHb | a IHa b IHb | a IHa b IHb | a IHa];
    cbn [python_tree PyExpr.interp PyExpr.interp_chain sem option_map].
  - reflexivity.
  - reflexivity.
  - rewrite IHa. cbn [option_map]. now destruct (sem rho a).
  - rewrite IHa. destruct (sem rho a); cbn; [exact IHb | reflexivity].
  - rewrite IHa. destruct (sem rho a); cbn; [reflexivity | exact IHb].
  - rewrite IHa, IHb. now destruct (sem rho a), (sem rho b).
  - exact IHa.
Qed.

(** [eval] on the text of a formula gives its truth value. *)
Lemma py_eval_python_text : forall rho f,
  grammatical f = true ->
  5 * size f <= PyExpr.parse_fuel ->
  py_eval (python_text rho f) = Some (Py.Value (Py.PyBool (sem rho f))).
Proof.
  intros rho f Hg Hsize. unfold py_eval. rewrite lex_python_text.
  destruct (parse_formula rho f Hg) as [_ [_ [_ [_ Hor]]]].
  pose proof (or_ok_closed rho f Hor PyExpr.parse_fuel [] Hsize eq_refl) as Hp.
  rewrite app_nil_r in Hp. rewrite Hp.
  unfold PyExpr.run. now rewrite interp_python_tree.
Qed.

(** *** Variables *)

Lemma chars_app : forall s t, Py.chars (s ++ t) = (Py.chars s ++ Py.chars t)%list.
Proof. induction s as [| c s IH]; intros t; cbn; [reflexivity | now rewrite IH]. Qed.

Lemma In_chars_join : forall pieces c,
  In c (Py.chars (join pieces)) <-> exists p, In p pieces /\ In c (Py.chars p).
Proof.
  induction pieces as [| p l IH]; intros c; cbn [join].
  - split; [intros [] | intros [p [[] _]]].
  - rewrite chars_app, in_app_iff, IH. split.
    + intros [H | [q [Hq Hc]]]; [exists p | exists q]; split; auto; [now left | now right].
    + intros [q [[<- | Hq] Hc]]; [now left | right; now exists q].
Qed.

Lemma upper_variable_letter : forall v,
  Py.mem v upper_variable_letters = true ->
  Py.is_letter v = true /\ ~ In v operators.
Proof.
  intros v H. apply mem_In in H.
  repeat (destruct H as [<- | H];
          [split; [reflexivity | intros Hin; cbn in Hin; intuition discriminate] |]).
  destruct H.
Qed.

Lemma In_letters_of_symbols : forall f v, In v (letters_of f) <-> In (KVar v) (symbols f).
Proof.
  induction f as [b | w | a IHa | a IHa b IHb | a IHa b IHb | a IHa b IHb | a IHa];
    intros v; cbn [letters_of symbols In]; rewrite ?in_app_iff; cbn [In];
    rewrite ?in_app_iff, <- ?IHa, <- ?IHb; cbn [In];
    intuition (try discriminate; try congruence).
Qed.

(** The variables the program extracts are the letters of the formula. *)
Lemma variables_of_formula : forall text f,
  Py.replace " " "" text = render typed f ->
  well_named f = true ->
  forall v, In v (variables (new_LogicalExpression text)) <-> In v (letters_of f).
Proof.
  intros text f Htext Hf v. unfold well_named in Hf. rewrite forallb_forall in Hf.
  cbn [new_LogicalExpression variables]. rewrite Htext, In_extract_variables.
  unfold render. rewrite In_chars_join. split.
  - intros [[p [Hp Hc]] [Hletter Hop]].
    apply in_map_iff in Hp. destruct Hp as [k [<- Hk]].
    destruct k as [| | | | | | w | b]; cbn in Hc;
      try (apply In_letters_of_symbols;
           destruct Hc as [<- | []]; exact Hk);
      try (exfalso; destruct b; cbn in Hc);
      repeat (destruct Hc as [<- | Hc];
              [try discriminate Hletter; exfalso; apply Hop; cbn; tauto |]);
      destruct Hc.
  - intros Hv. destruct (upper_variable_letter v (Hf v Hv)) as [H1 H2].
    split; [| now split].
    exists (String v ""). split; [| now left].
    apply in_map_iff. exists (KVar v). split; [reflexivity |].
    now apply In_letters_of_symbols.
Qed.

(** *** From the text to the value *)

Section Reading.

Variable eval : string -> Py.eval_result.
Hypothesis eval_agrees : agrees_with_python eval.

Variable text : string.
Variable f : formula.
Hypothesis text_reads : Py.replace " " "" text = render typed f.
Hypothesis names : well_named f = true.
Hypothesis grammar : grammatical f = true.
Hypothesis small : 5 * size f <= PyExpr.parse_fuel.

Lemma parsed_expr_formula :
  parsed_expr (new_LogicalExpression text) = render rewritten f.
Proof.
  cbn [new_LogicalExpression parsed_expr]. rewrite text_reads.
  now apply parse_expression_render.
Qed.

Lemma substitute_formula : forall d : Py.dict,
  (forall v, In v (letters_of f) -> d v <> None) ->
  substitute (variables (new_LogicalExpression text)) d
    (parsed_expr (new_LogicalExpression text))
  = Returns (join (map rewritten (map (assign (valuation d)) (symbols f)))).
Proof.
  intros d Hd. rewrite parsed_expr_formula. apply substitute_render.
  - intros v Hv. split.
    + apply In_variables in Hv. tauto.
    + apply Hd. now apply (variables_of_formula text f text_reads names).
  - intros v Hv. now apply (variables_of_formula text f text_reads names).
Qed.

Lemma evaluated_formula : forall rho,
  evaluated eval (join (map rewritten (map (assign rho) (symbols f))))
  = Z.b2z (sem rho f).
Proof.
  intros rho. unfold evaluated.
  rewrite eval_input_render, python_text_join.
  now rewrite (eval_agrees _ _ (py_eval_python_text rho f grammar small)).
Qed.

Lemma evaluate_formula : forall d : Py.dict,
  (forall v, In v (letters_of f) -> d v <> None) ->
  evaluate eval (new_LogicalExpression text) d = Returns (Z.b2z (sem (valuation d) f)).
Proof.
  intros d Hd.
  rewrite (evaluate_after_substitute eval _ _ _ (substitute_formula d Hd)).
  now rewrite evaluated_formula.
Qed.

Lemma result_of_formula : forall combination,
  length combination = length (variables (new_LogicalExpression text)) ->
  result_of eval (new_LogicalExpression text) combination
  = Z.b2z (sem (valuation (Py.dict_zip (variables (new_LogicalExpression text))
                                       combination)) f).
Proof.
  intros c Hlen. unfold result_of. rewrite evaluate_formula; [reflexivity |].
  intros v Hv. apply dict_zip_covers; [now symmetry |].
  now apply (variables_of_formula text f text_reads names).
Qed.

Lemma create_truth_table_formula :
  create_truth_table eval (new_LogicalExpression text)
  = Returns
      (map (fun combination =>
              map Z.b2z combination ++
              [Z.b2z (sem (valuation (Py.dict_zip (variables (new_LogicalExpression text))
                                                  combination)) f)])%list
           (Py.product [false; true] (length (variables (new_LogicalExpression text))))).
Proof.
  rewrite create_truth_table_closed_form, product_bool_index_bits, map_map.
  f_equal. apply map_ext. intros i. cbn zeta.
  rewrite result_of_formula; [reflexivity | apply length_index_bits].
Qed.

End Reading.

(** *** Assignments and rows *)

Lemma sem_ext : forall rho rho' f,
  (forall v, In v (letters_of f) -> rho v = rho' v) ->
  sem rho f = sem rho' f.
Proof.
  intros rho rho'.
  induction f as [b | v | a IHa | a IHa b IHb | a IHa b IHb | a IHa b IHb | a IHa];
    cbn [sem letters_of]; intros H;
    try (rewrite IHa, IHb; [reflexivity | |]; intros v Hv; apply H;
         apply in_or_app; tauto).
  - reflexivity.
  - apply H. now left.
  - now rewrite IHa.
  - now apply IHa.
Qed.

Lemma dict_zip_from_map : forall (rho : ascii -> bool) keys (d : Py.dict) k,
  fold_left (fun d kv => Py.dict_set (fst kv) (snd kv) d)
            (combine keys (map rho keys)) d k
  = if in_dec ascii_dec k keys then Some (rho k) else d k.
Proof.
  intros rho. induction keys as [| k1 keys IH]; intros d k.
  - reflexivity.
  - cbn [map combine fold_left fst snd]. rewrite IH.
    destruct (in_dec ascii_dec k keys) as [Hin | Hout];
      destruct (in_dec ascii_dec k (k1 :: keys)) as [Hin' | Hout']; try reflexivity.
    + exfalso. apply Hout'. now right.
    + unfold Py.dict_set. destruct Hin' as [<- | Hin']; [| contradiction].
      now rewrite Ascii.eqb_refl.
    + unfold Py.dict_set. destruct (Ascii.eqb_spec k k1) as [-> | _]; [| reflexivity].
      exfalso. apply Hout'. now left.
Qed.

(** The row of the assignment [rho] stands for [rho] on the variables. *)
Lemma valuation_dict_zip : forall (rho : ascii -> bool) keys k,
  In k keys -> valuation (Py.dict_zip keys (map rho keys)) k = rho k.
Proof.
  intros rho keys k H. unfold valuation, Py.dict_zip. rewrite dict_zip_from_map.
  destruct (in_dec ascii_dec k keys); [reflexivity | contradiction].
Qed.

Lemma In_product_bool : forall k (c : list bool),
  length c = k -> In c (Py.product [false; true] k).
Proof.
  intros k c H. rewrite product_bool_index_bits.
  destruct (index_bits_surj k c H) as [i [Hi <-]].
  apply in_map. apply in_seq. lia.
Qed.

Lemma product_bool_length : forall k (c : list bool),
  In c (Py.product [false; true] k) -> length c = k.
Proof.
  intros k c H. rewrite product_bool_index_bits in H.
  apply in_map_iff in H. destruct H as [i [<- _]]. apply length_index_bits.
Qed.

Lemma for_each_last_item : forall (A : Type) (cells : A -> list Z) (result : A -> Z) xs,
  for_each last_item (map (fun x => cells x ++ [result x])%list xs)
  = Returns (map result xs).
Proof.
  intros A cells result. induction xs as [| x xs IH]; [reflexivity |].
  cbn [map for_each]. rewrite IH. unfold last_item at 1.
  rewrite rev_app_distr. reflexivity.
Qed.

Lemma well_named_first : forall f,
  well_named f = true ->
  exists c s, render typed f = String c s /\ c <> "E"%char.
Proof.
  unfold render, well_named.
  induction f as [b | v | a IHa | a IHa b IHb | a IHa b IHb | a IHa b IHb | a IHa];
    cbn [symbols letters_of map join typed]; intros H;
    try (rewrite forallb_app in H; apply andb_true_iff in H; destruct H as [Ha Hb];
         destruct (IHa Ha) as [c [s [E Hc]]];
         rewrite map_app, join_app, E; cbn;
         eexists _, _; split; [reflexivity | exact Hc]).
  - destruct b; eexists _, _; (split; [reflexivity | discriminate]).
  - cbn [forallb] in H. apply andb_true_iff in H. destruct H as [H _].
    eexists _, _. split; [reflexivity |]. intros ->. discriminate H.
  - eexists _, _. split; [reflexivity | discriminate].
  - eexists _, _. split; [reflexivity | discriminate].
Qed.

Lemma formula_results_bits : forall self f, Forall is_bit (formula_results self f).
Proof.
  intros self f. apply Forall_forall. intros r Hr. apply in_map_iff in Hr.
  destruct Hr as [c [<- _]]. destruct (sem _ f); [now right | now left].
Qed.

Lemma length_formula_results : forall self f,
  length (formula_results self f) = 2 ^ length (variables self).
Proof.
  intros self f. unfold formula_results, assignments.
  now rewrite length_map, product_bool_index_bits, length_map, length_seq.
Qed.

Section Reports.

Variable eval : string -> Py.eval_result.
Hypothesis eval_agrees : agrees_with_python eval.

Variable text : string.
Variable f : formula.
Hypothesis text_reads : Py.replace " " "" text = render typed f.
Hypothesis names : well_named f = true.
Hypothesis grammar : grammatical f = true.
Hypothesis small : 5 * size f <= PyExpr.parse_fuel.

(** Every assignment agrees on the formula with the row that stands for it,
    and every row stands for an assignment. *)
Lemma In_assignments : forall rho : ascii -> bool,
  In (map rho (variables (new_LogicalExpression text))) (assignments (new_LogicalExpression text)).
Proof. intros rho. apply In_product_bool. apply length_map. Qed.

Lemma sem_row_valuation : forall rho,
  sem (row_valuation (new_LogicalExpression text)
                     (map rho (variables (new_LogicalExpression text)))) f
  = sem rho f.
Proof.
  intros rho. apply sem_ext. intros v Hv. unfold row_valuation.
  apply valuation_dict_zip. now apply (variables_of_formula _ f text_reads names).
Qed.

Lemma results_all : forall b : bool,
  Forall (fun r => r = Z.b2z b) (formula_results (new_LogicalExpression text) f) <->
  forall rho, sem rho f = b.
Proof.
  intros b. rewrite Forall_forall. split.
  - intros H rho.
    assert (Hr : Z.b2z (sem (row_valuation (new_LogicalExpression text)
                               (map rho (variables (new_LogicalExpression text)))) f)
                 = Z.b2z b).
    { apply H. unfold formula_results.
      apply (in_map (fun c => Z.b2z (sem (row_valuation (new_LogicalExpression text) c) f))).
      apply In_assignments. }
    rewrite sem_row_valuation in Hr.
    destruct (sem rho f), b; try reflexivity; discriminate Hr.
  - intros H r Hr. apply in_map_iff in Hr. destruct Hr as [c [<- _]]. now rewrite H.
Qed.

Lemma results_some : forall b : bool,
  ~ Forall (fun r => r = Z.b2z (negb b)) (formula_results (new_LogicalExpression text) f) <->
  exists rho, sem rho f = b.
Proof.
  intros b. split.
  - intros H.
    destruct (Forall_Exists_dec (fun r => r = Z.b2z (negb b))
                (fun r => Z.eq_dec r (Z.b2z (negb b)))
                (formula_results (new_LogicalExpression text) f))
      as [Hall | Hex]; [contradiction |].
    apply Exists_exists in Hex. destruct Hex as [r [Hr Hne]].
    apply in_map_iff in Hr. destruct Hr as [c [<- _]].
    exists (row_valuation (new_LogicalExpression text) c). destruct (sem _ f), b; try reflexivity;
      exfalso; now apply Hne.
  - intros [rho Hrho] H. pose proof (proj1 (results_all (negb b)) H rho) as Hn.
    rewrite Hrho in Hn. now destruct b.
Qed.

Lemma generate_truth_table_formula : forall entry,
  Py.strip entry = text ->
  generate_truth_table eval entry
  = Displayed (new_LogicalExpression text)
              (formula_rows (new_LogicalExpression text) f)
              (Some (report_of (new_LogicalExpression text)
                               (formula_results (new_LogicalExpression text) f))).
Proof.
  intros entry Hentry_text. unfold generate_truth_table. rewrite Hentry_text.
  destruct (well_named_first f names) as [c [s [Hfirst Hc]]].
  assert (Hentry : (String.eqb text "" || String.eqb text placeholder)
                   = false).
  { apply orb_false_iff. split; apply String.eqb_neq; intros E;
      rewrite E in text_reads; rewrite Hfirst in text_reads.
    - discriminate text_reads.
    - vm_compute in text_reads. apply Hc. congruence. }
  rewrite Hentry.
  rewrite (create_truth_table_formula eval eval_agrees _ f text_reads names grammar small).
  fold (assignments (new_LogicalExpression text)).
  change (map _ (assignments (new_LogicalExpression text)))
    with (formula_rows (new_LogicalExpression text) f).
  assert (Hres : for_each last_item (formula_rows (new_LogicalExpression text) f)
                 = Returns (formula_results (new_LogicalExpression text) f)).
  { apply for_each_last_item. }
  rewrite Hres.
  destruct (sum_bits _ (formula_results_bits (new_LogicalExpression text) f)) as [Hrange _].
  assert (Hformats : formats (sum (formula_results (new_LogicalExpression text) f))
                       (Z.of_nat (length (formula_results (new_LogicalExpression text) f))) = true).
  { unfold formats. apply Z.leb_le. lia. }
  rewrite Hformats.
  assert (Hrows : formula_rows (new_LogicalExpression text) f <> []).
  { unfold formula_rows, assignments. rewrite product_bool_index_bits.
    pose proof (Nat.pow_nonzero 2 (length (variables (new_LogicalExpression text)))
                  ltac:(lia)) as Hpow.
    destruct (2 ^ length (variables (new_LogicalExpression text))); [lia | discriminate]. }
  now rewrite (analyze_expression_report (new_LogicalExpression text) _ _ Hrows Hres).
Qed.

End Reports.

(** ** The loop that lists satisfying assignments *)

Lemma listed_from_closed_form : forall vars rows results count,
  for_each last_item rows = Returns results ->
  listed_from vars count rows
  = Returns (map (fun row => combine vars (removelast row))
                 (firstn (5 - count) (filter is_true_row rows))).
Proof.
  intros vars. induction rows as [| row rows IH]; intros results count H.
  - cbn [listed_from filter]. now rewrite firstn_nil.
  - cbn [for_each bind] in H. cbn [listed_from filter]. unfold is_true_row at 1.
    destruct (last_item row) as [r | e]; [| discriminate H]. cbn [bind] in *.
    destruct (for_each last_item rows) as [results' | e] eqn:E; [| discriminate H].
    destruct (r =? 1)%Z; cbn [andb].
    + destruct (Nat.ltb_spec count 5) as [Hlt | Hge].
      * rewrite (IH results' (S count) eq_refl). cbn [bind].
        replace (5 - count) with (S (5 - S count)) by lia. reflexivity.
      * rewrite (IH results' count eq_refl).
        replace (5 - count) with 0 by lia. reflexivity.
    + apply (IH results' count eq_refl).
Qed.

Lemma length_true_rows : forall rows results,
  for_each last_item rows = Returns results ->
  Forall is_bit results ->
  Z.of_nat (length (filter is_true_row rows)) = sum results.
Proof.
  induction rows as [| row rows IH]; intros results H Hbits.
  - cbn in H. injection H as <-. reflexivity.
  - cbn [for_each bind] in H. cbn [filter]. unfold is_true_row at 1.
    destruct (last_item row) as [r | e]; [| discriminate H]. cbn [bind] in H.
    destruct (for_each last_item rows) as [results' | e] eqn:E; [| discriminate H].
    cbn [bind] in H. injection H as <-.
    apply Forall_cons_iff in Hbits. destruct Hbits as [Hr Hbits].
    rewrite sum_cons. specialize (IH results' eq_refl Hbits).
    destruct Hr as [-> | ->]; cbn [Z.eqb Pos.eqb length]; lia.
Qed.

(** ** Readable formulas: what the program computes *)

(** X3.  [evaluate] computes the truth value of the formula.  Let the text,
    spaces removed, be the text of a formula [f] built from [AND], [OR],
    [NOT], [IFF], parentheses, the constants 0 and 1 and variables among the
    sixteen upper-case letters outside [operators], grouped as Python groups
    [and], [or], [not] and [==], with at most 40 symbols.  Then the variables
    of the expression are the letters of [f], and for every interpreter that
    agrees with Python and every dict with an entry for each of them,
    [evaluate] returns 1 if [f] is true under the dict and 0 if not. *)
Theorem evaluate_computes_the_formula :
  forall (eval : string -> Py.eval_result) (text : string) (f : formula) (d : Py.dict),
    agrees_with_python eval ->
    Py.replace " " "" text = render typed f ->
    well_named f = true ->
    grammatical f = true ->
    5 * size f <= PyExpr.parse_fuel ->
    (forall v, In v (letters_of f) -> d v <> None) ->
    (forall v, In v (variables (new_LogicalExpression text)) <-> In v (letters_of f)) /\
    evaluate eval (new_LogicalExpression text) d = Returns (Z.b2z (sem (valuation d) f)).
Proof.
  intros eval text f d Hagree Htext Hnames Hgrammar Hsmall Hd. split.
  - now apply variables_of_formula.
  - now apply evaluate_formula.
Qed.

Lemma evaluate_computes_the_formula_witness :
  (forall v, In v (variables (new_LogicalExpression example_text)) <->
             In v (letters_of example_formula)) /\
  evaluate fragment_eval (new_LogicalExpression example_text)
    (Py.dict_zip ["B"; "C"; "G"]%char [true; false; false])
  = Returns (Z.b2z (sem (valuation (Py.dict_zip ["B"; "C"; "G"]%char [true; false; false]))
                        example_formula)).
Proof.
  apply (evaluate_computes_the_formula fragment_eval example_text example_formula).
  - exact fragment_eval_agrees.
  - reflexivity.
  - reflexivity.
  - reflexivity.
  - apply Nat.leb_le. reflexivity.
  - intros v [<- | [<- | [<- | []]]]; discriminate.
Defined.

(** X4.  The truth table of such a text is the truth table of the formula:
    [create_truth_table] returns one row per assignment of
    [itertools.product], the values of the variables followed by the truth
    value of [f], and every assignment of truth values to the variables has
    its row in the table. *)
Theorem truth_table_of_a_formula :
  forall (eval : string -> Py.eval_result) (text : string) (f : formula),
    agrees_with_python eval ->
    Py.replace " " "" text = render typed f ->
    well_named f = true ->
    grammatical f = true ->
    5 * size f <= PyExpr.parse_fuel ->
    create_truth_table eval (new_LogicalExpression text)
    = Returns (formula_rows (new_LogicalExpression text) f) /\
    forall rho : ascii -> bool,
      In (map (fun v => Z.b2z (rho v)) (variables (new_LogicalExpression text))
          ++ [Z.b2z (sem rho f)])%list
         (formula_rows (new_LogicalExpression text) f).
Proof.
  intros eval text f Hagree Htext Hnames Hgrammar Hsmall. split.
  - now apply create_truth_table_formula.
  - intros rho. unfold formula_rows.
    rewrite <- (sem_row_valuation text f Htext Hnames rho), <- (map_map rho Z.b2z).
    apply (in_map (fun c => (map Z.b2z c
                             ++ [Z.b2z (sem (row_valuation (new_LogicalExpression text) c)
                                            f)])%list)).
    apply In_assignments.
Qed.

Lemma truth_table_of_a_formula_witness :
  create_truth_table fragment_eval (new_LogicalExpression example_text)
  = Returns (formula_rows (new_LogicalExpression example_text) example_formula) /\
  forall rho : ascii -> bool,
    In (map (fun v => Z.b2z (rho v)) (variables (new_LogicalExpression example_text))
        ++ [Z.b2z (sem rho example_formula)])%list
       (formula_rows (new_LogicalExpression example_text) example_formula).
Proof.
  apply (truth_table_of_a_formula fragment_eval example_text example_formula).
  - exact fragment_eval_agrees.
  - reflexivity.
  - reflexivity.
  - reflexivity.
  - apply Nat.leb_le. reflexivity.
Defined.

Lemma get_inside : forall pattern,
  four_bits pattern = true ->
  In (pattern, get operations pattern "Custom operation") operations /\
  get operations pattern "Custom operation" <> "Custom operation".
Proof.
  intros pattern Hfour.
  destruct (four_bits_cases _ Hfour) as [a [b [c [d [-> [Ha [Hb [Hc Hd]]]]]]]].
  destruct Ha as [-> | ->], Hb as [-> | ->], Hc as [-> | ->], Hd as [-> | ->];
    (split; [vm_compute; tauto | vm_compute; discriminate]).
Qed.

Lemma sum_results_models : forall self f,
  sum (formula_results self f) = Z.of_nat (length (models self f)).
Proof.
  intros self f. unfold formula_results, models.
  induction (assignments self) as [| c l IH]; [reflexivity |].
  cbn [map filter]. rewrite sum_cons, IH.
  destruct (sem (row_valuation self c) f); cbn [Z.b2z length]; lia.
Qed.

(** X5.  The classification of such a text is the logical status of the
    formula: the report says Tautology exactly when [f] is true under every
    assignment, Contradiction exactly when it is false under every
    assignment, and Contingency exactly when some assignment makes it true
    and another makes it false. *)
Theorem classification_decides_validity :
  forall (eval : string -> Py.eval_result) (entry : string) (f : formula),
    agrees_with_python eval ->
    Py.replace " " "" (Py.strip entry) = render typed f ->
    well_named f = true ->
    grammatical f = true ->
    5 * size f <= PyExpr.parse_fuel ->
    exists report,
      generate_truth_table eval entry
      = Displayed (new_LogicalExpression (Py.strip entry))
                  (formula_rows (new_LogicalExpression (Py.strip entry)) f)
                  (Some report) /\
      (classified report = Tautology <-> forall rho, sem rho f = true) /\
      (classified report = Contradiction <-> forall rho, sem rho f = false) /\
      (classified report = Contingency <->
         (exists rho, sem rho f = true) /\ (exists rho, sem rho f = false)).
Proof.
  intros eval entry f Hagree Htext Hnames Hgrammar Hsmall.
  eexists. split.
  { exact (generate_truth_table_formula eval Hagree _ f Htext Hnames Hgrammar Hsmall
             entry eq_refl). }
  pose proof (results_all _ f Htext Hnames true) as Hall1.
  pose proof (results_all _ f Htext Hnames false) as Hall0.
  pose proof (results_some _ f Htext Hnames true) as Hsome1.
  pose proof (results_some _ f Htext Hnames false) as Hsome0.
  cbn [negb Z.b2z] in *.
  set (results := formula_results (new_LogicalExpression (Py.strip entry)) f) in *.
  destruct (sum_bits results (formula_results_bits _ f)) as [Hrange [Hsum1 Hsum0]].
  assert (Hpos : (0 < Z.of_nat (length results))%Z).
  { unfold results. rewrite length_formula_results.
    pose proof (Nat.pow_nonzero 2 (length (variables (new_LogicalExpression (Py.strip entry))))
                  ltac:(lia)).
    lia. }
  unfold report_of. cbn [classified].
  rewrite <- Hall1, <- Hall0, <- Hsome1, <- Hsome0.
  destruct (Z.eqb_spec (sum results) (Z.of_nat (length results))) as [E1 | E1].
  - assert (H1 : Forall (fun r => r = 1%Z) results) by now apply Hsum1.
    assert (H0 : ~ Forall (fun r => r = 0%Z) results).
    { intros H0. apply Hsum0 in H0. lia. }
    repeat split; intros; try assumption; try discriminate; tauto.
  - assert (H1 : ~ Forall (fun r => r = 1%Z) results).
    { intros H1. apply Hsum1 in H1. contradiction. }
    destruct (Z.eqb_spec (Z.of_nat (length results) - sum results)
                (Z.of_nat (length results))) as [E0 | E0].
    + assert (H0 : Forall (fun r => r = 0%Z) results) by (apply Hsum0; lia).
      repeat split; intros; try assumption; try discriminate; tauto.
    + assert (H0 : ~ Forall (fun r => r = 0%Z) results).
      { intros H0. apply Hsum0 in H0. lia. }
      repeat split; intros; try assumption; try discriminate; tauto.
Qed.

Lemma classification_decides_validity_witness :
  exists report,
    generate_truth_table fragment_eval example_text
    = Displayed (new_LogicalExpression (Py.strip example_text))
                (formula_rows (new_LogicalExpression (Py.strip example_text)) example_formula)
                (Some report) /\
    (classified report = Tautology <-> forall rho, sem rho example_formula = true) /\
    (classified report = Contradiction <-> forall rho, sem rho example_formula = false) /\
    (classified report = Contingency <->
       (exists rho, sem rho example_formula = true) /\
       (exists rho, sem rho example_formula = false)).
Proof.
  apply (classification_decides_validity fragment_eval example_text example_formula).
  - exact fragment_eval_agrees.
  - reflexivity.
  - reflexivity.
  - reflexivity.
  - apply Nat.leb_le. reflexivity.
Defined.

(** X6.  The counts of the report count assignments: for such a text the
    total is [2 ^ k] for the [k] variables, the number of true assignments is
    the number of rows whose assignment makes [f] true, the false ones are
    the rest, and the expression is reported satisfiable exactly when some
    assignment makes [f] true. *)
Theorem report_counts_the_models :
  forall (eval : string -> Py.eval_result) (entry : string) (f : formula),
    agrees_with_python eval ->
    Py.replace " " "" (Py.strip entry) = render typed f ->
    well_named f = true ->
    grammatical f = true ->
    5 * size f <= PyExpr.parse_fuel ->
    exists rows report,
      generate_truth_table eval entry
      = Displayed (new_LogicalExpression (Py.strip entry)) rows (Some report) /\
      total_count report
      = Z.of_nat (2 ^ length (variables (new_LogicalExpression (Py.strip entry)))) /\
      true_count report
      = Z.of_nat (length (models (new_LogicalExpression (Py.strip entry)) f)) /\
      (true_count report + false_count report = total_count report)%Z /\
      (satisfiable report = true <-> exists rho, sem rho f = true).
Proof.
  intros eval entry f Hagree Htext Hnames Hgrammar Hsmall.
  eexists _, _. split.
  { exact (generate_truth_table_formula eval Hagree _ f Htext Hnames Hgrammar Hsmall
             entry eq_refl). }
  unfold report_of. cbn [total_count true_count false_count satisfiable].
  rewrite length_formula_results, sum_results_models.
  repeat split; try lia.
  - intros H. apply Z.ltb_lt in H.
    destruct (models (new_LogicalExpression (Py.strip entry)) f) as [| c l] eqn:E;
      [cbn in H; lia |].
    assert (Hc : In c (models (new_LogicalExpression (Py.strip entry)) f))
      by (rewrite E; now left).
    apply filter_In in Hc. destruct Hc as [_ Hc].
    exists (row_valuation (new_LogicalExpression (Py.strip entry)) c). exact Hc.
  - intros [rho Hrho]. apply Z.ltb_lt.
    assert (Hin : In (map rho (variables (new_LogicalExpression (Py.strip entry))))
                     (models (new_LogicalExpression (Py.strip entry)) f)).
    { apply filter_In. split; [apply In_assignments |].
      now rewrite (sem_row_valuation _ f Htext Hnames). }
    destruct (models (new_LogicalExpression (Py.strip entry)) f); [destruct Hin |].
    cbn [length]. lia.
Qed.

Lemma report_counts_the_models_witness :
  exists rows report,
    generate_truth_table fragment_eval example_text
    = Displayed (new_LogicalExpression (Py.strip example_text)) rows (Some report) /\
    total_count report
    = Z.of_nat (2 ^ length (variables (new_LogicalExpression (Py.strip example_text)))) /\
    true_count report
    = Z.of_nat (length (models (new_LogicalExpression (Py.strip example_text))
                               example_formula)) /\
    (true_count report + false_count report = total_count report)%Z /\
    (satisfiable report = true <-> exists rho, sem rho example_formula = true).
Proof.
  apply (report_counts_the_models fragment_eval example_text example_formula).
  - exact fragment_eval_agrees.
  - reflexivity.
  - reflexivity.
  - reflexivity.
  - apply Nat.leb_le. reflexivity.
Defined.

(** X7.  For such a text with exactly two variables the report names the
    binary operation of the formula: the name is the entry of [operations]
    for the truth values of [f] on the rows FF, FT, TF, TT, never the
    fallback label; with another number of variables no name is given. *)
Theorem binary_operation_of_a_formula :
  forall (eval : string -> Py.eval_result) (entry : string) (f : formula),
    agrees_with_python eval ->
    Py.replace " " "" (Py.strip entry) = render typed f ->
    well_named f = true ->
    grammatical f = true ->
    5 * size f <= PyExpr.parse_fuel ->
    exists rows report,
      generate_truth_table eval entry
      = Displayed (new_LogicalExpression (Py.strip entry)) rows (Some report) /\
      (length (variables (new_LogicalExpression (Py.strip entry))) = 2 ->
       exists name,
         binary_operation report = Some name /\
         In (formula_results (new_LogicalExpression (Py.strip entry)) f, name) operations /\
         name <> "Custom operation") /\
      (length (variables (new_LogicalExpression (Py.strip entry))) <> 2 ->
       binary_operation report = None).
Proof.
  intros eval entry f Hagree Htext Hnames Hgrammar Hsmall.
  eexists _, _. split.
  { exact (generate_truth_table_formula eval Hagree _ f Htext Hnames Hgrammar Hsmall
             entry eq_refl). }
  unfold report_of. cbn [binary_operation]. split.
  - intros Htwo. rewrite Htwo. cbn [Nat.eqb]. eexists. split; [reflexivity |].
    apply get_inside. unfold four_bits. apply andb_true_iff. split.
    + rewrite length_formula_results, Htwo. reflexivity.
    + apply forallb_forall. intros r Hr.
      pose proof (formula_results_bits (new_LogicalExpression (Py.strip entry)) f) as Hbits.
      rewrite Forall_forall in Hbits. destruct (Hbits r Hr) as [-> | ->]; reflexivity.
  - intros Hother. apply Nat.eqb_neq in Hother. now rewrite Hother.
Qed.

Lemma binary_operation_of_a_formula_witness :
  exists rows report,
    generate_truth_table fragment_eval "NOT (B IFF C)"
    = Displayed (new_LogicalExpression (Py.strip "NOT (B IFF C)")) rows (Some report) /\
    (length (variables (new_LogicalExpression (Py.strip "NOT (B IFF C)"))) = 2 ->
     exists name,
       binary_operation report = Some name /\
       In (formula_results (new_LogicalExpression (Py.strip "NOT (B IFF C)"))
             (FNot (FParen (FIff (FVar "B") (FVar "C")))), name) operations /\
       name <> "Custom operation") /\
    (length (variables (new_LogicalExpression (Py.strip "NOT (B IFF C)"))) <> 2 ->
     binary_operation report = None).
Proof.
  apply (binary_operation_of_a_formula fragment_eval "NOT (B IFF C)"
           (FNot (FParen (FIff (FVar "B") (FVar "C"))))).
  - exact fragment_eval_agrees.
  - reflexivity.
  - reflexivity.
  - reflexivity.
  - apply Nat.leb_le. reflexivity.
Defined.

(** X8.  The satisfying assignments of the report account for the true
    count.  For a table whose results are truth values: nothing is listed
    when no result is 1; otherwise the assignments listed are those of the
    first five rows with result 1, in table order, each as the pairs of
    [zip(variables, row[:-1])], and the number listed plus the number
    announced as [... and n more] is the number of true rows. *)
Theorem listing_accounts_for_the_true_rows :
  forall (self : LogicalExpression) (rows : list (list Z)) (results : list Z),
    for_each last_item rows = Returns results ->
    Forall is_bit results ->
    (sum results = 0%Z ->
     satisfying_assignments self rows (sum results) = Returns None) /\
    (sum results <> 0%Z ->
     exists listed more,
       satisfying_assignments self rows (sum results) = Returns (Some (listed, more)) /\
       listed = map (fun row => combine (variables self) (removelast row))
                    (firstn 5 (filter is_true_row rows)) /\
       length listed <= 5 /\
       (Z.of_nat (length listed) + match more with Some n => n | None => 0 end
        = sum results)%Z).
Proof.
  intros self rows results Hres Hbits.
  destruct (sum_bits results Hbits) as [Hrange _].
  pose proof (length_true_rows rows results Hres Hbits) as Htrue.
  unfold satisfying_assignments. split.
  - intros ->. reflexivity.
  - intros Hne. assert (Hpos : (0 <? sum results)%Z = true) by (apply Z.ltb_lt; lia).
    rewrite Hpos, (listed_from_closed_form _ rows results 0 Hres). cbn [bind Nat.sub].
    eexists _, _. split; [reflexivity |]. split; [reflexivity |].
    rewrite length_map, length_firstn. split; [lia |].
    destruct (Z.ltb_spec 5 (sum results)); lia.
Qed.

Lemma listing_accounts_for_the_true_rows_witness :
  (sum [0; 1; 1]%Z = 0%Z ->
   satisfying_assignments (new_LogicalExpression "B") [[0; 0]; [1; 1]; [1; 1]]%Z
     (sum [0; 1; 1]%Z) = Returns None) /\
  (sum [0; 1; 1]%Z <> 0%Z ->
   exists listed more,
     satisfying_assignments (new_LogicalExpression "B") [[0; 0]; [1; 1]; [1; 1]]%Z
       (sum [0; 1; 1]%Z) = Returns (Some (listed, more)) /\
     listed = map (fun row => combine (variables (new_LogicalExpression "B"))
                                      (removelast row))
                  (firstn 5 (filter is_true_row [[0; 0]; [1; 1]; [1; 1]]%Z)) /\
     length listed <= 5 /\
     (Z.of_nat (length listed) + match more with Some n => n | None => 0 end
      = sum [0; 1; 1]%Z)%Z).
Proof.
  apply (listing_accounts_for_the_true_rows (new_LogicalExpression "B")
           [[0; 0]; [1; 1]; [1; 1]]%Z [0; 1; 1]%Z).
  - reflexivity.
  - apply Forall_cons; [left; reflexivity |].
    apply Forall_cons; [right; reflexivity |].
    apply Forall_cons; [right; reflexivity | apply Forall_nil].
Defined.

Lemma filter_true_rows : forall (A : Type) (cells : A -> list Z) (p : A -> bool) xs,
  filter is_true_row (map (fun x => cells x ++ [Z.b2z (p x)])%list xs)
  = map (fun x => cells x ++ [Z.b2z (p x)])%list (filter p xs).
Proof.
  intros A cells p. induction xs as [| x xs IH]; [reflexivity |].
  cbn [map filter]. unfold is_true_row at 1, last_item.
  rewrite rev_app_distr. cbn [rev app]. rewrite IH.
  destruct (p x) eqn:E; cbn [map Z.b2z Z.eqb Pos.eqb]; rewrite ?E; reflexivity.
Qed.

(** X9.  For the text of a formula the assignments listed in the report are
    models of the formula: they are the first five assignments of the table,
    in its order, that make [f] true, each variable paired with its value. *)
Theorem listed_assignments_are_models :
  forall (eval : string -> Py.eval_result) (text : string) (f : formula),
    agrees_with_python eval ->
    Py.replace " " "" text = render typed f ->
    well_named f = true ->
    grammatical f = true ->
    5 * size f <= PyExpr.parse_fuel ->
    exists rows,
      create_truth_table eval (new_LogicalExpression text) = Returns rows /\
      listed_from (variables (new_LogicalExpression text)) 0 rows
      = Returns (map (fun combination =>
                        combine (variables (new_LogicalExpression text))
                                (map Z.b2z combination))
                     (firstn 5 (models (new_LogicalExpression text) f))).
Proof.
  intros eval text f Hagree Htext Hnames Hgrammar Hsmall.
  exists (formula_rows (new_LogicalExpression text) f). split.
  - now apply create_truth_table_formula.
  - rewrite (listed_from_closed_form _ _ (formula_results (new_LogicalExpression text) f) 0)
      by apply for_each_last_item.
    cbn [Nat.sub]. unfold formula_rows, models. rewrite filter_true_rows.
    rewrite firstn_map, map_map. f_equal. apply map_ext. intros c.
    now rewrite removelast_last.
Qed.

Lemma listed_assignments_are_models_witness :
  exists rows,
    create_truth_table fragment_eval (new_LogicalExpression example_text) = Returns rows /\
    listed_from (variables (new_LogicalExpression example_text)) 0 rows
    = Returns (map (fun combination =>
                      combine (variables (new_LogicalExpression example_text))
                              (map Z.b2z combination))
                   (firstn 5 (models (new_LogicalExpression example_text) example_formula))).
Proof.
  apply (listed_assignments_are_models fragment_eval example_text example_formula).
  - exact fragment_eval_agrees.
  - reflexivity.
  - reflexivity.
  - reflexivity.
  - apply Nat.leb_le. reflexivity.
Defined.

(** ** The plots and the table *)









(** ** How [IFF] groups *)

Lemma iff_and_reads :
  forallb (fun X =>
    forallb (fun Y =>
      forallb (fun Z =>
                 String.eqb (Py.replace " " "" (iff_and X Y Z))
                            (render typed (FAnd (FIff (FVar X) (FVar Y)) (FVar Z))))
              upper_variable_letters)
            upper_variable_letters)
          upper_variable_letters = true.
Proof. vm_compute. reflexivity. Qed.

(** X14.  [IFF] binds tighter than [AND]: Python compares before it
    conjoins, so for variables [X], [Y], [Z] among the sixteen upper-case
    variable letters the text [X IFF Y AND Z] is evaluated as
    [(X IFF Y) AND Z], not as [X IFF (Y AND Z)]: [evaluate] returns 1 exactly
    when [X] and [Y] have the same value and [Z] is true. *)
Theorem iff_binds_tighter_than_and :
  forall (eval : string -> Py.eval_result) (X Y Z : ascii) (d : Py.dict),
    agrees_with_python eval ->
    In X upper_variable_letters ->
    In Y upper_variable_letters ->
    In Z upper_variable_letters ->
    d X <> None -> d Y <> None -> d Z <> None ->
    evaluate eval (new_LogicalExpression (iff_and X Y Z)) d
    = Returns (Z.b2z (Bool.eqb (valuation d X) (valuation d Y) && valuation d Z)).
Proof.
  intros eval X Y Z d Hagree HX HY HZ HdX HdY HdZ.
  pose proof iff_and_reads as Hreads.
  rewrite forallb_forall in Hreads. specialize (Hreads X HX).
  rewrite forallb_forall in Hreads. specialize (Hreads Y HY).
  rewrite forallb_forall in Hreads. specialize (Hreads Z HZ).
  apply String.eqb_eq in Hreads.
  apply (evaluate_formula eval Hagree _ (FAnd (FIff (FVar X) (FVar Y)) (FVar Z)) Hreads).
  - unfold well_named. cbn [letters_of app forallb].
    apply mem_In in HX, HY, HZ. now rewrite HX, HY, HZ.
  - reflexivity.
  - apply Nat.leb_le. reflexivity.
  - intros v [<- | [<- | [<- | []]]]; assumption.
Qed.

Lemma iff_binds_tighter_than_and_witness :
  evaluate fragment_eval (new_LogicalExpression (iff_and "B" "C" "G"))
    (Py.dict_zip ["B"; "C"; "G"]%char [false; true; false])
  = Returns (Z.b2z (Bool.eqb (valuation (Py.dict_zip ["B"; "C"; "G"]%char [false; true; false]) "B")
                             (valuation (Py.dict_zip ["B"; "C"; "G"]%char [false; true; false]) "C")
                    && valuation (Py.dict_zip ["B"; "C"; "G"]%char [false; true; false]) "G")).
Proof.
  apply (iff_binds_tighter_than_and fragment_eval "B" "C" "G").
  - exact fragment_eval_agrees.
  - vm_compute. tauto.
  - vm_compute. tauto.
  - vm_compute. tauto.
  - discriminate.
  - discriminate.
  - discriminate.
Defined.
